(** * CMS 2015 HI ppref dataset records: model of [create_dataset_records.py]

    A shallow embedding of
    [cms-2015-collision-datasets-hi-ppref/code/create_dataset_records.py]
    and the properties of it that the repository's specification states.

    Python [str] values are [string]s (one [ascii] per character), Python
    dictionaries that are only looked up are [gmap]s, dictionaries whose
    iteration order is observable (JSON documents, the record being built,
    [LINK_INFO]) are association lists in insertion order, and exceptions are
    values of the type [exn] carried by [result]. *)

From Stdlib Require Import ZArith Ascii String List Lia Floats DecimalString.
From stdpp Require Import base option list strings gmap.

Set Warnings "-register-all".

(** String concatenation computes on literals in the proofs below. *)
#[global] Arguments String.append !_ _ / : simpl nomatch.

Local Open Scope Z_scope.
Local Open Scope stdpp_scope.

(** ** Exceptions and results *)

Inductive exn : Set :=
| FileNotFoundError
| KeyError
| ValueError
| NameError
| AttributeError
| JSONDecodeError
| SystemExit.

Inductive result (A : Type) : Type :=
| Ok (a : A)
| Raise (e : exn).
Arguments Ok {A} a.
Arguments Raise {A} e.

#[global] Instance result_ret : MRet result := @Ok.
#[global] Instance result_bind : MBind result := fun A B k m =>
  match m with
  | Ok a => k a
  | Raise e => Raise e
  end.

(** ** Python string methods *)

Module Py.

Definition nl : ascii := Ascii.ascii_of_nat 10.
Definition dquote : string := String (Ascii.ascii_of_nat 34) "".

(** [str.isspace] on the ASCII range: TAB, LF, VT, FF, CR, FS, GS, RS, US
    and SPACE. *)
Definition isspace (c : ascii) : bool :=
  let n := nat_of_ascii c in
  ((9 <=? n) && (n <=? 13) || (28 <=? n) && (n <=? 32))%nat.

Definition isdigit (c : ascii) : bool :=
  let n := nat_of_ascii c in ((48 <=? n) && (n <=? 57))%nat.

(** [s.startswith(p)] *)
Definition startswith (s p : string) : bool := String.prefix p s.

(** [s.endswith(suf)]: some tail of [s] is [suf]. *)
Fixpoint endswith (s suf : string) : bool :=
  String.eqb s suf ||
  match s with
  | "" => false
  | String _ s' => endswith s' suf
  end.

(** [sub in s] *)
Fixpoint contains (s sub : string) : bool :=
  String.prefix sub s ||
  match s with
  | "" => false
  | String _ s' => contains s' sub
  end.

Fixpoint lstrip (s : string) : string :=
  match s with
  | "" => ""
  | String c s' => if isspace c then lstrip s' else s
  end.

Fixpoint rstrip (s : string) : string :=
  match s with
  | "" => ""
  | String c s' =>
      match rstrip s' with
      | "" => if isspace c then "" else String c ""
      | r => String c r
      end
  end.

(** [s.strip()] *)
Definition strip (s : string) : string := rstrip (lstrip s).

(** [s.split(sep)] for a one-character separator: never empty. *)
Fixpoint split (sep : ascii) (s : string) : list string :=
  match s with
  | "" => [""]
  | String c s' =>
      if Ascii.eqb c sep then "" :: split sep s'
      else match split sep s' with
           | h :: t => String c h :: t
           | [] => [String c ""]
           end
  end.

(** [s.split()]: maximal runs of non-space characters. *)
Fixpoint split_ws_go (cur : option string) (s : string) : list string :=
  match s with
  | "" => option_list (String.rev <$> cur)
  | String c s' =>
      if isspace c
      then option_list (String.rev <$> cur) ++ split_ws_go None s'
      else split_ws_go (Some (String c (default "" cur))) s'
  end.
Definition split_ws : string → list string := split_ws_go None.

(** [f.readlines()] on the text of a file: each line keeps its newline. *)
Fixpoint readlines (s : string) : list string :=
  match s with
  | "" => []
  | String c s' =>
      if Ascii.eqb c nl then String c "" :: readlines s'
      else match readlines s' with
           | h :: t => String c h :: t
           | [] => [String c ""]
           end
  end.

(** [s[lo:hi]] for [0 <= lo <= hi] *)
Definition slice (lo hi : nat) (s : string) : string :=
  String.substring lo (hi - lo) s.

Definition chop (n : nat) (s : string) : string :=
  String.substring 0 (String.length s - n) s.

(** [s.replace(old, new)].  With an empty [old], Python inserts [new]
    before every character and at the end.  Otherwise the string is
    scanned from the left and every non-overlapping occurrence replaced;
    [skip] counts the characters of a matched occurrence still to drop. *)
Fixpoint replace_go (old new : string) (skip : nat) (s : string) : string :=
  match s with
  | "" => ""
  | String c s' =>
      match skip with
      | S k => replace_go old new k s'
      | O =>
          if String.prefix old s
          then new +:+ replace_go old new (String.length old - 1) s'
          else String c (replace_go old new 0 s')
      end
  end.

Fixpoint intersperse (new : string) (s : string) : string :=
  match s with
  | "" => new
  | String c s' => new +:+ String c (intersperse new s')
  end.

Definition replace (s old new : string) : string :=
  match old with
  | "" => intersperse new s
  | _ => replace_go old new 0 s
  end.

(** [str(n)] for an integer *)
Definition str (n : Z) : string := NilZero.string_of_int (Z.to_int n).

(** [sep.join(l)] *)
Definition join (sep : string) (l : list string) : string :=
  String.concat sep l.

End Py.

(** ** JSON-like values

    What [json.load] returns: [None], booleans, integers, floats, strings,
    lists, and dictionaries in document order. *)

Inductive json : Type :=
| JNull
| JBool (b : bool)
| JInt (n : Z)
| JFloat (f : float)
| JStr (s : string)
| JList (l : list json)
| JDict (kvs : list (string * json)).

(** Python truth value, as tested by [if aval:] *)
Definition truthy (v : json) : bool :=
  match v with
  | JNull => false
  | JBool b => b
  | JInt n => negb (n =? 0)
  | JFloat f => negb (PrimFloat.eqb f 0%float)
  | JStr s => negb (String.eqb s "")
  | JList l => match l with [] => false | _ => true end
  | JDict kvs => match kvs with [] => false | _ => true end
  end.

(** [d[k]] / [k in d.keys()] on a dictionary kept in insertion order *)
Fixpoint dict_get {V} (kvs : list (string * V)) (k : string) : option V :=
  match kvs with
  | [] => None
  | (k', v) :: kvs' => if String.eqb k' k then Some v else dict_get kvs' k
  end.

(** [get_from_deep_json(data, akey)]: Python's [None] is [JNull].  The
    inner loops return [Some aval] when the source executes [return aval]
    and [None] when the loop runs to its end. *)
Fixpoint get_from_deep_json (data : json) (akey : string) {struct data} : json :=
  let for_elem :=
    fix for_elem (l : list json) : option json :=
      match l with
      | [] => None
      | elem :: l' =>
          let aval := get_from_deep_json elem akey in
          if truthy aval then Some aval else for_elem l'
      end in
  match data with
  | JDict kvs =>
      match dict_get kvs akey with
      | Some v => v
      | None =>
          let for_val :=
            fix for_val (kvs : list (string * json)) : option json :=
              match kvs with
              | [] => None
              | (_, val) :: kvs' =>
                  match val with
                  | JDict _ =>
                      let aval := get_from_deep_json val akey in
                      if truthy aval then Some aval else for_val kvs'
                  | JList l =>
                      match for_elem l with
                      | Some aval => Some aval
                      | None => for_val kvs'
                      end
                  | _ => for_val kvs'
                  end
              end in
          default JNull (for_val kvs)
      end
  | JList l => default JNull (for_elem l)
  | _ => JNull
  end.


(** ** The parts of the process environment the script can observe

    [fs] maps a path to the content of the file there, [getoutput] is
    [subprocess.getoutput] (the text a shell command prints).  [clock] and
    [entropy] stand for the wall-clock time and the random source of the
    process: the script consults neither. *)

Record world : Type := World {
  fs : gmap string string;
  getoutput : string → string;
  clock : Z;
  entropy : list bool
}.

(** [open(path).read()] *)
Definition read_file (w : world) (path : string) : result string :=
  match fs w !! path with
  | Some content => Ok content
  | None => Raise FileNotFoundError
  end.

(** [os.path.exists(path)] *)
Definition path_exists (w : world) (path : string) : bool :=
  bool_decide (is_Some (fs w !! path)).

(** [a, b = l] *)
Definition unpack2 {A} (l : list A) : result (A * A) :=
  match l with
  | [a; b] => Ok (a, b)
  | _ => Raise ValueError
  end.

(** [for x in l: acc = body(acc, x)], stopping at the first exception *)
Fixpoint for_each {A S} (body : S → A → result S) (l : list A) (acc : S)
  : result S :=
  match l with
  | [] => Ok acc
  | x :: l' => acc' ← body acc x; for_each body l' acc'
  end.

(** ** Checksums *)

(** [zlib.adler32(data, value)] *)
Fixpoint adler32_go (a b : Z) (data : string) : Z * Z :=
  match data with
  | "" => (a, b)
  | String c data' =>
      let a' := (a + Z.of_nat (nat_of_ascii c)) mod 65521 in
      adler32_go a' ((b + a') mod 65521) data'
  end.

Definition adler32 (data : string) (value : Z) : Z :=
  let '(a, b) :=
    adler32_go (Z.land value 65535) (Z.land (Z.shiftr value 16) 65535) data in
  Z.lor (Z.shiftl b 16) a.

Definition hexdigit (d : Z) : ascii :=
  if d <? 10 then ascii_of_nat (Z.to_nat (48 + d))
  else ascii_of_nat (Z.to_nat (87 + d)).

Fixpoint hex_go (fuel : nat) (n : Z) (acc : string) : string :=
  match fuel with
  | O => acc
  | S fuel' =>
      let acc' := String (hexdigit (n mod 16)) acc in
      if n / 16 =? 0 then acc' else hex_go fuel' (n / 16) acc'
  end.

(** [hex(n)] *)
Definition hex (n : Z) : string :=
  (if n <? 0 then "-0x" else "0x") +:+
  hex_go (S (Z.to_nat (Z.log2 (Z.abs n)))) (Z.abs n) "".

Fixpoint zeros (n : nat) : string :=
  match n with
  | O => ""
  | S n' => String "0" (zeros n')
  end.

(** [s.zfill(width)]: a leading sign stays in front of the padding. *)
Definition zfill (width : nat) (s : string) : string :=
  let pad := zeros (width - String.length s) in
  match s with
  | String c s' =>
      if Ascii.eqb c "+" || Ascii.eqb c "-" then String c (pad +:+ s')
      else pad +:+ s
  | "" => pad
  end.

(** [s[n:]] *)
Definition drop_chars (n : nat) (s : string) : string :=
  String.substring n (String.length s - n) s.

(** [get_file_size(afile)] *)
Definition get_file_size (w : world) (afile : string) : result Z :=
  content ← read_file w afile;
  Ok (Z.of_nat (String.length content)).

(** [get_file_checksum(afile)] *)
Definition get_file_checksum (w : world) (afile : string) : result string :=
  content ← read_file w afile;
  Ok (zfill 8 (drop_chars 2 (hex (Z.land (adler32 content 1) 4294967295)))).

(** ** The dataset identifier pattern

    The [re.match] of [create_record]: a slash, a greedy star group, a
    slash, a lazy star group, a dash, a lazy star group, a slash, a greedy
    star group and the end anchor, run as the backtracking search
    Python performs.  A star takes characters other than the newline; the
    greedy one tries the longest run first, the lazy one the shortest; the
    continuation [k] receives the captured text and the rest of the input
    and answers [None] to ask for the next alternative. *)

Module Re.

Fixpoint star_greedy {A} (k : string → string → option A) (s : string)
  : option A :=
  match s with
  | "" => k "" ""
  | String c s' =>
      if Ascii.eqb c Py.nl then k "" s
      else match star_greedy (fun p r => k (String c p) r) s' with
           | Some x => Some x
           | None => k "" s
           end
  end.

Fixpoint star_lazy {A} (k : string → string → option A) (s : string)
  : option A :=
  match k "" s with
  | Some x => Some x
  | None =>
      match s with
      | "" => None
      | String c s' =>
          if Ascii.eqb c Py.nl then None
          else star_lazy (fun p r => k (String c p) r) s'
      end
  end.

(** [$]: the end of the string, or just before a newline that ends it *)
Definition at_end (r : string) : bool :=
  String.eqb r "" || String.eqb r (String Py.nl "").

(** [lit c k s]: the literal character [c], then [k] on what follows *)
Definition lit {A} (c : ascii) (k : string → option A) (s : string)
  : option A :=
  match s with
  | String c' s' => if Ascii.eqb c' c then k s' else None
  | "" => None
  end.

(** The four groups of the pattern, when it matches *)
Definition dataset_match (s : string)
  : option (string * string * string * string) :=
  lit "/" (star_greedy (fun g1 =>
  lit "/" (star_lazy (fun g2 =>
  lit "-" (star_lazy (fun g3 =>
  lit "/" (star_greedy (fun g4 r =>
    if at_end r then Some (g1, g2, g3, g4) else None)))))))) s.

End Re.

(** ** Insertion sort, for [values.sort()] on strings *)

Fixpoint insert_sorted (x : string) (l : list string) : list string :=
  match l with
  | [] => [x]
  | y :: l' => if String.leb x y then x :: l else y :: insert_sorted x l'
  end.

Definition sort_strings (l : list string) : list string :=
  foldr insert_sorted [] l.

(** ** The module-level tables *)

Record globals : Type := Globals {
  FWYZARD : gmap string (list string);
  SELECTION_DESCRIPTIONS : gmap string string;
  LINK_INFO : list (string * string);
  DOI_INFO : gmap string string;
  RUNNUMBER_CACHE : gmap string (list string);
  CONTAINERIMAGES_CACHE : gmap string json;
  RECOCMSSW_CACHE : gmap string string;
  RECOGLOBALTAG_CACHE : gmap string string
}.

Definition recid_freerange_start : Z := 24600.
Definition recid_validated_runs_full_validation : Z := 14212.
Definition recid_validated_runs_muons_only : Z := 14213.
Definition recid_hlt_trigger_configuration : Z := 23900.
Definition global_tag : string := "75X_dataRun2_v13".
Definition cmssw_release : string := "CMSSW_7_5_8_patch3".
Definition collision_energy : string := "5.02TeV".
Definition collision_type : string := "pp".
Definition year_published : string := "2023".

(** ** Loaders *)

(** [populate_fwyzard()] *)
Definition populate_fwyzard (w : world)
  : result (gmap string (list string)) :=
  let path := "./inputs/hlt-2015-hi-ppref-datasets.txt" in
  if path_exists w path then
    text ← read_file w path;
    for_each (fun (tbl : gmap string (list string)) line =>
        let line := Py.strip line in
        '(dataset, trigger) ← unpack2 (Py.split "," line);
        match tbl !! dataset with
        | Some triggers => Ok (<[dataset := triggers ++ [trigger]]> tbl)
        | None => Ok (<[dataset := [trigger]]> tbl)
        end)
      (Py.readlines text) ∅
  else Ok ∅.

(** [populate_doiinfo()] *)
Definition populate_doiinfo (w : world) : result (gmap string string) :=
  text ← read_file w "./inputs/doi-col.txt";
  for_each (fun (tbl : gmap string string) line =>
      '(dataset, doi) ← unpack2 (Py.split_ws line);
      Ok (<[dataset := doi]> tbl))
    (Py.readlines text) ∅.

(** The loop state of [populate_runnumber_cache]: the cache, the header
    being read, its values so far, and what was printed. *)
Record runnumber_state : Type := RunnumberState {
  rn_cache : gmap string (list string);
  rn_dataset : string;
  rn_values : list string;
  rn_printed : list string
}.

Definition runnumber_step (st : runnumber_state) (line : string)
  : runnumber_state :=
  let line := Py.strip line in
  if Py.startswith line "/" then
    let st' :=
      match rn_cache st !! rn_dataset st with
      | Some _ =>
          RunnumberState (rn_cache st) (rn_dataset st) (rn_values st)
            (rn_printed st ++
             ["[ERROR] " +:+ rn_dataset st +:+
              " existing several times in the input file."])
      | None =>
          match rn_values st with
          | [] => st
          | _ :: _ =>
              RunnumberState
                (<[rn_dataset st := sort_strings (rn_values st)]> (rn_cache st))
                (rn_dataset st) (rn_values st) (rn_printed st)
          end
      end in
    RunnumberState (rn_cache st') line [] (rn_printed st')
  else
    RunnumberState (rn_cache st) (rn_dataset st) (rn_values st ++ [line])
      (rn_printed st).

Definition runnumber_lines (lines : list string) : runnumber_state :=
  foldl runnumber_step (RunnumberState ∅ "" [] []) lines.

(** [populate_runnumber_cache()]: the cache and the lines printed *)
Definition populate_runnumber_cache (w : world)
  : result (gmap string (list string) * list string) :=
  text ← read_file w "../cms-YYYY-run-numbers/inputs/allruns.txt";
  let st := runnumber_lines (Py.readlines text) in
  Ok (rn_cache st, rn_printed st).

(** [populate_recocmssw_cache()] and [populate_recoglobaltag_cache()] differ
    in the file they read. *)
Definition populate_reco_cache (w : world) (path : string)
  : result (gmap string string) :=
  text ← read_file w path;
  for_each (fun (tbl : gmap string string) line =>
      let line := Py.strip line in
      '(reco, value) ← unpack2 (Py.split " " line);
      let reco := Py.replace reco ".py" "" in
      Ok (<[reco := value]> tbl))
    (Py.readlines text) ∅.

Definition populate_recocmssw_cache (w : world) :=
  populate_reco_cache w "./inputs/reco-config-files-cmssw.csv".

Definition populate_recoglobaltag_cache (w : world) :=
  populate_reco_cache w "./inputs/reco-config-files-globaltag.csv".

(** ** Programs that print

    A [prog] threads the lines written to standard output and may raise. *)

Definition prog (A : Type) : Type := list string → list string * result A.

#[global] Instance prog_ret : MRet prog := fun A a out => (out, Ok a).
#[global] Instance prog_bind : MBind prog := fun A B k m out =>
  match m out with
  | (out', Ok a) => k a out'
  | (out', Raise e) => (out', Raise e)
  end.

Definition lift {A} (r : result A) : prog A := fun out => (out, r).

(** [print(s)] *)
Definition print (s : string) : prog unit := fun out => (out ++ [s], Ok ()).

(** Several [print] calls in a row *)
Definition print_lines (lines : list string) : prog unit :=
  fun out => (out ++ lines, Ok ()).

(** The value of a name in an f-string of a function: [scope] holds the
    string-valued names the function can see. *)
Definition load_name (scope : list (string * string)) (name : string)
  : result string :=
  match dict_get scope name with
  | Some v => Ok v
  | None => Raise NameError
  end.

(** The string constants of the module, visible in every function.  No
    import, table or function of the module is called [dataset]. *)
Definition module_strings : list (string * string) :=
  [("global_tag", global_tag); ("cmssw_release", cmssw_release);
   ("collision_energy", collision_energy);
   ("collision_type", collision_type); ("year_published", year_published)].

(** The three fields of one index file, as the tuple of the source *)
Record index_file : Type := IndexFile {
  file_uri : string;
  file_size : Z;
  file_checksum : string
}.

(** ** A small installation, for examples

    One dataset with its DOI, its run numbers, an empty DAS document and
    two index files; a second dataset closes the run-number list. *)

Definition sample_dataset : string := "/ZeroBias/Run2015E-PromptReco-v1/AOD".

Definition sample_json_loads (text : string) : option json :=
  if String.eqb text "{}" then Some (JDict [])
  else if String.eqb text "[]" then Some (JList [])
  else None.

Definition sample_json_dumps (j : json) : string :=
  match j with
  | JList l => "records: " +:+ Py.str (Z.of_nat (length l))
  | _ => ""
  end.

Definition line (s : string) : string := s +:+ String Py.nl "".

Definition sample_world : world :=
  World
    (list_to_map
       [("./inputs/doi-col.txt", line (sample_dataset +:+ " 10.7483/OPENDATA.CMS.XXXX.YYYY"));
        ("../cms-YYYY-run-numbers/inputs/allruns.txt",
         line sample_dataset +:+ line "261447" +:+ line "261446"
         +:+ line "/HighPtJet80/Run2015E-PromptReco-v1/AOD" +:+ line "262000");
        ("../cms-release-info/cms_release_container_images_info.json", "{}");
        ("./inputs/reco-config-files-cmssw.csv", "");
        ("./inputs/reco-config-files-globaltag.csv", "");
        ("./inputs/das-json-store/@ZeroBias@Run2015E-PromptReco-v1@AOD.json", "{}");
        ("./inputs/eos-file-indexes/CMS_Run2015E_ZeroBias_AOD_file_index.json", "[]");
        ("./inputs/eos-file-indexes/CMS_Run2015E_ZeroBias_AOD_file_index.txt",
         line "root://eospublic.cern.ch//eos/opendata/cms/Run2015E/ZeroBias/AOD/0001.root");
        ("./inputs/cms-2015-collision-datasets-hi-ppref.txt", line sample_dataset)])
    (fun _ =>
       line "CMS_Run2015E_ZeroBias_AOD_file_index.json"
       +:+ "CMS_Run2015E_ZeroBias_AOD_file_index.txt")
    0 [].

(** The same installation at another time, with another random source and
    one more file that is not an input *)
Definition sample_world_later : world :=
  World (<["/etc/hostname" := "lxplus"]> (fs sample_world))
    (getoutput sample_world) 1700000000 [true; false; true].

Definition sample_globals : globals :=
  Globals ∅ ∅ [] {[sample_dataset := "10.7483/OPENDATA.CMS.XXXX.YYYY"]}
    {[sample_dataset := ["261446"; "261447"]]} ∅ ∅ ∅.

(** A DOI file with an empty line after its only entry, and a run-number
    file whose first lines come before any header *)
Definition sample_world_blank : world :=
  World
    {[ "./inputs/doi-col.txt" :=
         line (sample_dataset +:+ " 10.7483/OPENDATA.CMS.XXXX.YYYY") +:+ line "" ]}
    (fun _ => "") 0 [].

Definition sample_world_leading : world :=
  World
    {[ "../cms-YYYY-run-numbers/inputs/allruns.txt" :=
         line "262001" +:+ line "262000" +:+ line sample_dataset +:+ line "261446" ]}
    (fun _ => "") 0 [].

Section Pipeline.

(** *** What the script imports

    [create_eos_file_indexes] belongs to the repository but its text is
    not at hand; its three names are taken as they are imported.  The
    library functions [json.load]/[json.loads], [json.dumps] (with the
    options of [print_records]) and [csv.reader] are functions of the
    text they are given; [link_info_of] is the [LINK_INFO] dictionary
    that executing the text of [reco_config_files_link_info.py] leaves
    behind, record ids as [%s] prints them. *)
Variable XROOTD_URI_BASE : string.
Variable get_dataset_index_file_base : string → string.
Variable get_dataset_location : string → string.
Variable json_loads : string → option json.
Variable json_dumps : json → string.
Variable csv_reader : ascii → string → list (list string).
Variable link_info_of : string → list (string * string).

(** The module-level [exec] that fills [LINK_INFO] *)
Definition load_link_info (w : world) : list (string * string) :=
  match fs w !! "./outputs/reco_config_files_link_info.py" with
  | Some text => link_info_of text
  | None => []
  end.

(** [populate_containerimages_cache()] *)
Definition populate_containerimages_cache (w : world)
  : result (gmap string json) :=
  text ← read_file w "../cms-release-info/cms_release_container_images_info.json";
  match json_loads text with
  | None => Raise JSONDecodeError
  | Some (JDict content) =>
      Ok (foldl (fun (tbl : gmap string json) kv =>
                   match dict_get content kv.1 with
                   | Some v => <[kv.1 := v]> tbl
                   | None => tbl
                   end) ∅ content)
  | Some _ => Raise AttributeError
  end.

(** [populate_selection_descriptions()] *)
Definition populate_selection_descriptions (w : world)
  : result (gmap string string) :=
  for_each (fun (tbl : gmap string string) input_file =>
      if path_exists w input_file then
        text ← read_file w input_file;
        for_each (fun (tbl : gmap string string) line_values =>
            '(dataset, description) ← unpack2 line_values;
            Ok (<[dataset := description]> tbl))
          (csv_reader ":" text) tbl
      else Ok tbl)
    ["./inputs/CMSDatasetDescription_Run2015E.csv"] ∅.

(** The [filepath] of [get_das_store_json] *)
Definition das_store_path (dataset : string) : string :=
  "./inputs/das-json-store/" +:+ Py.replace dataset "/" "@" +:+ ".json".

(** [get_das_store_json(dataset)] *)
Definition get_das_store_json (w : world) (dataset : string) : result json :=
  let filepath := das_store_path dataset in
  text ← read_file w filepath;
  match json_loads text with
  | Some doc => Ok doc
  | None => Raise JSONDecodeError
  end.

(** [get_number_events(dataset)] *)
Definition get_number_events (w : world) (dataset : string) : result json :=
  doc ← get_das_store_json w dataset;
  let number_events := get_from_deep_json doc "nevents" in
  if truthy number_events then Ok number_events else Ok (JInt 0).

(** [get_number_files(dataset)] *)
Definition get_number_files (w : world) (dataset : string) : result json :=
  doc ← get_das_store_json w dataset;
  let number_files := get_from_deep_json doc "nfiles" in
  if truthy number_files then Ok number_files else Ok (JInt 0).

(** [get_size(dataset)] *)
Definition get_size (w : world) (dataset : string) : result json :=
  doc ← get_das_store_json w dataset;
  let size := get_from_deep_json doc "size" in
  if truthy size then Ok size else Ok (JInt 0).

(** [get_trigger_paths_for_dataset(dataset)] *)
Definition get_trigger_paths_for_dataset (g : globals) (dataset : string)
  : list string :=
  default [] (FWYZARD g !! dataset).

(** [create_selection_information(dataset, dataset_full_name)] *)
Definition create_selection_information (g : globals)
    (dataset dataset_full_name : string) : result string :=
  let out := "" in
  let description := default "" (SELECTION_DESCRIPTIONS g !! dataset_full_name) in
  let out :=
    if negb (String.eqb description "")
    then out +:+ "<p>" +:+ description +:+ "</p>" else out in
  let out := out +:+ "<p><strong>Data taking / HLT</strong>" in
  let out := out +:+
    "<br/>The collision data were assigned to different RAW datasets using the following <a href="
    +:+ Py.dquote +:+ "/record/" +:+ Py.str recid_hlt_trigger_configuration
    +:+ Py.dquote +:+ ">HLT configuration</a>.</p>" in
  let process := "RECO" in
  out ← for_each (fun out (link : string * string) =>
      let reco_link := link.1 in
      if negb (Py.contains reco_link ("_" +:+ dataset +:+ "_")) then Ok out
      else
        let generator_text :=
          "Configuration file for " +:+ process +:+ " step " +:+ reco_link in
        release ← match RECOCMSSW_CACHE g !! reco_link with
                  | Some v => Ok v | None => Raise KeyError end;
        global_tag ← match RECOGLOBALTAG_CACHE g !! reco_link with
                     | Some v => Ok v | None => Raise KeyError end;
        let out := out +:+ "<p><strong>Data processing / RECO</strong>" in
        let out := out +:+
          "<br/>This primary AOD dataset was processed from the RAW dataset by the following step (the run number in the configuration file name indicates the first run it was applied to): " in
        let out := out +:+ "<br/>Step: " +:+ process in
        let out := out +:+ "<br/>Release: " +:+ release in
        let out := out +:+ "<br/>Global tag: " +:+ global_tag in
        let out := out +:+ String Py.nl "        <br/><a href=" +:+ Py.dquote
          +:+ "/record/" +:+ link.2 +:+ Py.dquote +:+ ">"
          +:+ generator_text +:+ "</a>" in
        Ok (out +:+ String Py.nl "        </p>"))
    (LINK_INFO g) out;
  let out := out +:+ "<p><strong>HLT trigger paths</strong>" in
  let out := out +:+ "<br/>The possible <a href=" +:+ Py.dquote
    +:+ "/docs/cms-guide-trigger-system#hlt-trigger-path-definitions"
    +:+ Py.dquote +:+ ">HLT trigger paths</a> in this dataset are:" in
  let trigger_paths := get_trigger_paths_for_dataset g dataset in
  let out := foldl (fun out trigger_path =>
      let trigger_path :=
        if Py.endswith trigger_path "_v" then Py.chop 2 trigger_path
        else trigger_path in
      out +:+ "<br/><a href=" +:+ Py.dquote +:+ "/search?q=" +:+ trigger_path
        +:+ "&type=Supplementaries&year=2015" +:+ Py.dquote +:+ ">"
        +:+ trigger_path +:+ "</a>")
    out trigger_paths in
  Ok (out +:+ "</p>").

(** Where an index file named in the listing is read from *)
Definition index_file_path (afile : string) : string :=
  "./inputs/eos-file-indexes/" +:+ afile.

(** The shell command of [get_dataset_index_files] *)
Definition index_listing_command (dataset_full_name : string) : string :=
  "ls ./inputs/eos-file-indexes/ | grep "
  +:+ get_dataset_index_file_base dataset_full_name.

(** [get_dataset_index_files(dataset_full_name)] *)
Definition get_dataset_index_files (w : world) (dataset_full_name : string)
  : result (list index_file) :=
  let output := getoutput w (index_listing_command dataset_full_name) in
  for_each (fun files line =>
      let afile := Py.strip line in
      if Py.endswith afile ".txt" || Py.endswith afile ".json" then
        let afile_uri :=
          XROOTD_URI_BASE +:+ get_dataset_location dataset_full_name
          +:+ "/file-indexes/" +:+ afile in
        afile_size ← get_file_size w (index_file_path afile);
        afile_checksum ← get_file_checksum w (index_file_path afile);
        Ok (files ++ [IndexFile afile_uri afile_size afile_checksum])
      else Ok files)
    (Py.split Py.nl output) [].

(** [get_doi(dataset_full_name)] *)
Definition get_doi (g : globals) (dataset_full_name : string) : result string :=
  match DOI_INFO g !! dataset_full_name with
  | Some doi => Ok doi
  | None => Raise KeyError
  end.

(** The entries of [rec["files"]] for one index type *)
Definition files_of_type (dataset_short dataset_format : string)
    (rec_files : list index_file) (index_type : string) : list json :=
  let index_files :=
    List.filter (fun f => Py.endswith (file_uri f) index_type) rec_files in
  imap (fun file_number f =>
      JDict
        [("checksum", JStr ("adler32:" +:+ file_checksum f));
         ("description",
          JStr (dataset_short +:+ " " +:+ dataset_format +:+ " file index ("
                +:+ Py.str (Z.of_nat file_number + 1) +:+ " of "
                +:+ Py.str (Z.of_nat (length index_files))
                +:+ ") for access to data"));
         ("size", JInt (file_size f));
         ("type", JStr ("index" +:+ index_type));
         ("uri", JStr (file_uri f))])
    index_files.

(** [rec["files"]]: the [.json] index files, then the [.txt] ones *)
Definition record_files (dataset_short dataset_format : string)
    (rec_files : list index_file) : list json :=
  concat (map (files_of_type dataset_short dataset_format rec_files)
              [".json"; ".txt"]).

(** [dataset_runperiod_year] and [dataset_runperiod_runx] of
    [create_record] *)
Definition dataset_runperiod_year (dataset_runperiod : string) : string :=
  Py.slice 3 7 dataset_runperiod.

Definition dataset_runperiod_runx (dataset_runperiod : string) : string :=
  Py.replace dataset_runperiod (dataset_runperiod_year dataset_runperiod) "".

(** [create_record(recid, dataset_full_name)].  The record is the
    dictionary [rec] with its keys in the order they are assigned. *)
Definition create_record (g : globals) (w : world)
    (recid : Z) (dataset_full_name : string) : prog json :=
  match Re.dataset_match dataset_full_name with
  | None =>
      dataset ← lift (load_name
        (("recid", Py.str recid) :: ("dataset_full_name", dataset_full_name)
         :: module_strings) "dataset");
      _ ← print ("[ERROR] Cannot parse dataset " +:+ dataset +:+ ".");
      lift (Raise SystemExit)
  | Some (dataset_short, dataset_runperiod, dataset_version, dataset_format) =>
      let dataset_runperiod_year := dataset_runperiod_year dataset_runperiod in
      let dataset_runperiod_runx := dataset_runperiod_runx dataset_runperiod in
      let abstract :=
        JDict
          [("description",
            JStr ("<p>" +:+ dataset_short
              +:+ " primary dataset in " +:+ dataset_format +:+ " format from "
              +:+ dataset_runperiod_runx +:+ " of " +:+ dataset_runperiod_year
              +:+ ". Run period from run number 261445 to 262328.<p>"
              +:+ "<p>These proton-proton data were taken at the same centre-of-mass energy and have a similar trigger menu to proton-Pb collision data from 2013.</p>"
              +:+ "<p>The list of validated runs, which must be applied to all analyses, either with the full validation or for an analysis requiring only muons, can be found in</p>"));
           ("links",
            JList
              [JDict [("description", JStr "Validated runs, full validation");
                      ("recid", JStr (Py.str recid_validated_runs_full_validation))];
               JDict [("description", JStr "Validated runs, muons only");
                      ("recid", JStr (Py.str recid_validated_runs_muons_only))]])] in
      lift (
        number_events ← get_number_events w dataset_full_name;
        number_files ← get_number_files w dataset_full_name;
        size ← get_size w dataset_full_name;
        doi ← get_doi g dataset_full_name;
        rec_files ← get_dataset_index_files w dataset_full_name;
        let files := record_files dataset_short dataset_format rec_files in
        methodology ← create_selection_information g dataset_short dataset_full_name;
        Ok (JDict (
          [("abstract", abstract);
           ("accelerator", JStr "CERN-LHC");
           ("collaboration",
            JDict [("name", JStr "CMS collaboration"); ("recid", JStr "451")]);
           ("collections", JList [JStr "CMS-Primary-Datasets"]);
           ("collision_information",
            JDict [("energy", JStr collision_energy);
                   ("type", JStr collision_type)]);
           ("date_created", JList [JStr dataset_runperiod_year]);
           ("date_published", JStr year_published);
           ("date_reprocessed", JStr dataset_runperiod_year);
           ("distribution",
            JDict [("formats", JList [JStr "aod"; JStr "root"]);
                   ("number_events", number_events);
                   ("number_files", number_files);
                   ("size", size)]);
           ("doi", JStr doi);
           ("experiment", JStr "CMS");
           ("files", JList files);
           ("keywords", JList [JStr "heavy-ion physics"]);
           ("license", JDict [("attribution", JStr "CC0")]);
           ("methodology", JDict [("description", JStr methodology)]);
           ("publisher", JStr "CERN Open Data Portal");
           ("recid", JStr (Py.str recid))]
          ++ match RUNNUMBER_CACHE g !! dataset_full_name with
             | Some run_numbers => [("run_numbers", JList (JStr <$> run_numbers))]
             | None => []
             end
          ++ [("run_period", JList [JStr dataset_runperiod]);
              ("system_details",
               JDict ([("global_tag", JStr global_tag);
                       ("release", JStr cmssw_release)]
                      ++ match CONTAINERIMAGES_CACHE g !! cmssw_release with
                         | Some images => [("container_images", images)]
                         | None => []
                         end));
              ("title", JStr dataset_full_name);
              ("title_additional",
               JStr (dataset_short +:+ " primary dataset in " +:+ dataset_format
                     +:+ " format from " +:+ dataset_runperiod_runx +:+ " of "
                     +:+ dataset_runperiod_year +:+ " (" +:+ dataset_full_name
                     +:+ ")"));
              ("type",
               JDict [("primary", JStr "Dataset");
                      ("secondary", JList [JStr "Collision"])]);
              ("usage",
               JDict
                 [("description",
                   JStr "You can access these data through the CMS Open Data container or the CMS Virtual Machine. See the instructions for setting up one of the two alternative environments and getting started in");
                  ("links",
                   JList
                     [JDict [("description", JStr "Running CMS analysis code using Docker");
                             ("url", JStr "/docs/cms-guide-docker")];
                      JDict [("description", JStr "How to install the CMS Virtual Machine");
                             ("url", JStr ("/docs/cms-virtual-machine-" +:+ dataset_runperiod_year))];
                      JDict [("description", JStr "Getting Started with CMS 2013 and 2015 Heavy-Ion Open Data");
                             ("url", JStr "/docs/cms-getting-started-hi-2013-2015")]])]);
              ("validation",
               JDict
                 [("description",
                   JStr "During data taking all the runs recorded by CMS are certified as good for physics analysis if all subdetectors, trigger, lumi and physics objects (tracking, electron, muon, photon, jet and MET) show the expected performance. Certification is based first on the offline shifters evaluation and later on the feedback provided by detector and Physics Object Group experts. Based on the above information, which is stored in a specific database called Run Registry, the Data Quality Monitoring group verifies the consistency of the certification and prepares a json file of certified runs to be used for physics analysis. For each reprocessing of the raw data, the above mentioned steps are repeated. For more information see:");
                  ("links",
                   JList
                     [JDict [("description", JStr "The Data Quality Monitoring Software for the CMS experiment at the LHC: past, present and future");
                             ("url", JStr "https://www.epj-conferences.org/articles/epjconf/pdf/2019/19/epjconf_chep2018_02003.pdf")]])])])))
  end.

(** [create_records(dataset_full_names)]: the loop, with the running
    [recid] *)
Fixpoint create_records_from (g : globals) (w : world) (recid : Z)
    (dataset_full_names : list string) (records : list json)
  : prog (list json) :=
  match dataset_full_names with
  | [] => mret records
  | dataset_full_name :: rest =>
      rec ← create_record g w recid dataset_full_name;
      create_records_from g w (recid + 1) rest (records ++ [rec])
  end.

Definition create_records (g : globals) (w : world)
    (dataset_full_names : list string) : prog (list json) :=
  create_records_from g w recid_freerange_start dataset_full_names [].

(** [print_records(records)] *)
Definition print_records (records : list json) : prog unit :=
  print (json_dumps (JList records)).

(** The tables as [main] leaves them after the seven loaders *)
Definition populate (w : world) : prog globals :=
  fwyzard ← lift (populate_fwyzard w);
  doi_info ← lift (populate_doiinfo w);
  '(runnumber_cache, printed) ← lift (populate_runnumber_cache w);
  _ ← print_lines printed;
  containerimages_cache ← lift (populate_containerimages_cache w);
  recocmssw_cache ← lift (populate_recocmssw_cache w);
  recoglobaltag_cache ← lift (populate_recoglobaltag_cache w);
  selection_descriptions ← lift (populate_selection_descriptions w);
  mret (Globals fwyzard selection_descriptions (load_link_info w) doi_info
          runnumber_cache containerimages_cache recocmssw_cache
          recoglobaltag_cache).

(** [main()] *)
Definition main (w : world) : prog unit :=
  g ← populate w;
  text ← lift (read_file w "./inputs/cms-2015-collision-datasets-hi-ppref.txt");
  let dataset_full_names := Py.strip <$> Py.readlines text in
  records ← create_records g w dataset_full_names;
  print_records records.

(** A run of the script: what it writes to standard output, and how it
    ends. *)
Definition run (w : world) : list string * result unit := main w [].

(** ** Reference definitions for the statements below *)

(** The first value bound to [k] in depth-first order, a mapping being
    asked for [k] before its values are entered. *)
Fixpoint first_found (data : json) (k : string) : option json :=
  match data with
  | JDict kvs =>
      match dict_get kvs k with
      | Some v => Some v
      | None =>
          (fix values (kvs : list (string * json)) : option json :=
             match kvs with
             | [] => None
             | (_, v) :: kvs' =>
                 match first_found v k with
                 | Some x => Some x
                 | None => values kvs'
                 end
             end) kvs
      end
  | JList l =>
      (fix elems (l : list json) : option json :=
         match l with
         | [] => None
         | e :: l' =>
             match first_found e k with
             | Some x => Some x
             | None => elems l'
             end
         end) l
  | _ => None
  end.

(** Every value bound to [k] by a mapping at any depth of [data] *)
Fixpoint bound_values (data : json) (k : string) : list json :=
  match data with
  | JDict kvs =>
      (fix values (kvs : list (string * json)) : list json :=
         match kvs with
         | [] => []
         | (k', v) :: kvs' =>
             (if String.eqb k' k then [v] else [])
             ++ bound_values v k ++ values kvs'
         end) kvs
  | JList l =>
      (fix elems (l : list json) : list json :=
         match l with
         | [] => []
         | e :: l' => bound_values e k ++ elems l'
         end) l
  | _ => []
  end.

(** The two searches inside [first_found], named *)
Definition first_in_elems (k : string) : list json → option json :=
  fix elems (l : list json) : option json :=
    match l with
    | [] => None
    | e :: l' =>
        match first_found e k with
        | Some x => Some x
        | None => elems l'
        end
    end.

Definition first_in_values (k : string) : list (string * json) → option json :=
  fix values (kvs : list (string * json)) : option json :=
    match kvs with
    | [] => None
    | (_, v) :: kvs' =>
        match first_found v k with
        | Some x => Some x
        | None => values kvs'
        end
    end.

(** The loops of [get_from_deep_json], named *)
Definition for_elem (akey : string) : list json → option json :=
  fix for_elem (l : list json) : option json :=
    match l with
    | [] => None
    | elem :: l' =>
        let aval := get_from_deep_json elem akey in
        if truthy aval then Some aval else for_elem l'
    end.

Definition for_val (akey : string) : list (string * json) → option json :=
  fix for_val (kvs : list (string * json)) : option json :=
    match kvs with
    | [] => None
    | (_, val) :: kvs' =>
        match val with
        | JDict _ =>
            let aval := get_from_deep_json val akey in
            if truthy aval then Some aval else for_val kvs'
        | JList l =>
            match for_elem akey l with
            | Some aval => Some aval
            | None => for_val kvs'
            end
        | _ => for_val kvs'
        end
    end.

(** A DAS document whose first [nevents] is zero *)
Definition das_doc_zero_events : json :=
  JDict [("das", JDict [("nevents", JInt 0)]);
         ("summary", JList [JDict [("nevents", JInt 5)]])].

(** The four components put back together with their separators *)
Definition rebuild (dataset_short dataset_runperiod dataset_version
    dataset_format : string) : string :=
  "/" +:+ dataset_short +:+ "/" +:+ dataset_runperiod +:+ "-"
  +:+ dataset_version +:+ "/" +:+ dataset_format.

(** Four decimal digits *)
Definition is_year (y : string) : bool :=
  match y with
  | String c1 (String c2 (String c3 (String c4 ""))) =>
      Py.isdigit c1 && Py.isdigit c2 && Py.isdigit c3 && Py.isdigit c4
  | _ => false
  end.

(** No decimal digit at all *)
Fixpoint no_digit (s : string) : bool :=
  match s with
  | "" => true
  | String c s' => negb (Py.isdigit c) && no_digit s'
  end.

(** The characters [0] to [9] and [a] to [f] *)
Definition is_lower_hex (c : ascii) : bool :=
  let n := nat_of_ascii c in
  ((48 <=? n) && (n <=? 57) || (97 <=? n) && (n <=? 102))%nat.

Fixpoint all_chars (p : ascii → bool) (s : string) : bool :=
  match s with
  | "" => true
  | String c s' => p c && all_chars p s'
  end.

(** A number as exactly [width] lowercase hexadecimal digits *)
Fixpoint hex_fixed (width : nat) (n : Z) (acc : string) : string :=
  match width with
  | O => acc
  | S width' => hex_fixed width' (n / 16) (String (hexdigit (n mod 16)) acc)
  end.

Definition hex8 (n : Z) : string := hex_fixed 8 n "".

(** A computation that returns *)
Definition succeeds {A} (r : result A) : Prop := ∃ a, r = Ok a.

(** A name with one of the two index extensions *)
Definition is_index_name (afile : string) : bool :=
  Py.endswith afile ".txt" || Py.endswith afile ".json".

(** The directory listing of a dataset: the lines of the command's
    output, and those of them that name [.json] and [.txt] files *)
Definition listing (w : world) (dataset_full_name : string) : list string :=
  Py.strip <$> Py.split Py.nl (getoutput w (index_listing_command dataset_full_name)).

Definition json_names (w : world) (dataset_full_name : string) : list string :=
  List.filter (fun a => Py.endswith a ".json") (listing w dataset_full_name).

Definition txt_names (w : world) (dataset_full_name : string) : list string :=
  List.filter (fun a => Py.endswith a ".txt") (listing w dataset_full_name).

Definition index_content (w : world) (afile : string) : string :=
  default "" (fs w !! index_file_path afile).

(** The artifact of an index file: its remote address, the number of
    bytes of its content and the eight lowercase hexadecimal digits of the
    Adler-32 sum of the content *)
Definition artifact (w : world) (dataset_full_name afile : string) : index_file :=
  IndexFile
    (XROOTD_URI_BASE +:+ get_dataset_location dataset_full_name
     +:+ "/file-indexes/" +:+ afile)
    (Z.of_nat (String.length (index_content w afile)))
    (hex8 (adler32 (index_content w afile) 1)).

(** The entry of the files array for the file numbered [number + 1] of
    [total] files of its extension *)
Definition expected_file (w : world) (dataset_full_name dataset_short
    dataset_format index_type : string) (total number : nat) (afile : string)
  : json :=
  JDict
    [("checksum",
      JStr ("adler32:" +:+ hex8 (adler32 (index_content w afile) 1)));
     ("description",
      JStr (dataset_short +:+ " " +:+ dataset_format +:+ " file index ("
            +:+ Py.str (Z.of_nat number + 1) +:+ " of "
            +:+ Py.str (Z.of_nat total) +:+ ") for access to data"));
     ("size", JInt (Z.of_nat (String.length (index_content w afile))));
     ("type", JStr ("index" +:+ index_type));
     ("uri",
      JStr (XROOTD_URI_BASE +:+ get_dataset_location dataset_full_name
            +:+ "/file-indexes/" +:+ afile))].

(** What [create_record] needs besides a well-formed identifier: the DAS
    document, the DOI, the caches behind the selection text, and every
    index file of the listing in place *)
Definition sources_ok (g : globals) (w : world)
    (dataset_full_name dataset_short : string) : Prop :=
  succeeds (get_das_store_json w dataset_full_name) ∧
  succeeds (get_doi g dataset_full_name) ∧
  succeeds (create_selection_information g dataset_short dataset_full_name) ∧
  Forall (fun a => is_Some (fs w !! index_file_path a))
    (json_names w dataset_full_name ++ txt_names w dataset_full_name).

Definition buildable (g : globals) (w : world) (dataset_full_name : string)
  : Prop :=
  ∃ short runperiod version format,
    Re.dataset_match dataset_full_name = Some (short, runperiod, version, format) ∧
    sources_ok g w dataset_full_name short.

Fixpoint last_char (s : string) : option ascii :=
  match s with
  | "" => None
  | String c s' =>
      match s' with
      | "" => Some c
      | _ => last_char s'
      end
  end.

(** The files the script is given: everything under [./inputs/], the
    run-number list, the container-image table and the link table *)
Definition is_input_path (path : string) : bool :=
  Py.startswith path "./inputs/"
  || String.eqb path "../cms-YYYY-run-numbers/inputs/allruns.txt"
  || String.eqb path "../cms-release-info/cms_release_container_images_info.json"
  || String.eqb path "./outputs/reco_config_files_link_info.py".

(** Two worlds with the same input files and the same directory
    listings; they may differ in every other file, in the time and in the
    random source. *)
Definition same_inputs (w1 w2 : world) : Prop :=
  (∀ path, is_input_path path = true → fs w1 !! path = fs w2 !! path) ∧
  (∀ command, getoutput w1 command = getoutput w2 command).

(** The value the outermost mapping itself binds to [k], if [data] is a
    mapping that does *)
Definition top_hit (data : json) (k : string) : option json :=
  match data with
  | JDict kvs => dict_get kvs k
  | _ => None
  end.

(** The name of the file of a dataset inside the DAS store *)
Definition das_store_name (dataset : string) : string :=
  Py.replace dataset "/" "@".

(** [int(s, 16)] on lowercase hexadecimal digits *)
Definition hex_digit_value (c : ascii) : Z :=
  let n := Z.of_nat (nat_of_ascii c) in
  if n <? 58 then n - 48 else n - 87.

Fixpoint hex_value_go (s : string) (v : Z) : Z :=
  match s with
  | "" => v
  | String c s' => hex_value_go s' (16 * v + hex_digit_value c)
  end.

Definition hex_value (s : string) : Z := hex_value_go s 0.

(** The names of the listing that [get_dataset_index_files] keeps *)
Definition index_names (w : world) (dataset_full_name : string) : list string :=
  List.filter is_index_name (listing w dataset_full_name).

(** A link of [LINK_INFO] that [create_selection_information] can render
    for the dataset: it is about another dataset, or both reco caches know
    its configuration file. *)
Definition link_covered (g : globals) (dataset : string)
    (link : string * string) : bool :=
  negb (Py.contains link.1 ("_" +:+ dataset +:+ "_"))
  || match RECOCMSSW_CACHE g !! link.1, RECOGLOBALTAG_CACHE g !! link.1 with
     | Some _, Some _ => true
     | _, _ => false
     end.

(** The exceptions [create_record] can end with *)
Definition record_error (e : exn) : Prop :=
  e = NameError ∨ e = FileNotFoundError ∨ e = JSONDecodeError ∨ e = KeyError.

(** Strictly increasing in the order of [str] *)
Fixpoint strictly_sorted (l : list string) : bool :=
  match l with
  | [] => true
  | x :: l' =>
      match l' with
      | [] => true
      | y :: _ => String.ltb x y && strictly_sorted l'
      end
  end.

(** A row of exactly two fields *)
Definition fields2 (row : list string) : option (string * string) :=
  match row with
  | [a; b] => Some (a, b)
  | _ => None
  end.

(** The rows of a table as pairs, if every row has exactly two fields *)
Fixpoint parse_rows (rows : list (list string)) : option (list (string * string)) :=
  match rows with
  | [] => Some []
  | row :: rows' =>
      match fields2 row, parse_rows rows' with
      | Some p, Some ps => Some (p :: ps)
      | _, _ => None
      end
  end.

(** The rows of the four line-oriented sources *)
Definition doi_rows (text : string) : list (list string) :=
  Py.split_ws <$> Py.readlines text.

Definition reco_rows (text : string) : list (list string) :=
  (fun l => Py.split " " (Py.strip l)) <$> Py.readlines text.

Definition fwyzard_rows (text : string) : list (list string) :=
  (fun l => Py.split "," (Py.strip l)) <$> Py.readlines text.

(** The value a table built by successive assignments holds for a key: that
    of the last pair with the key *)
Definition last_value (ps : list (string * string)) (k : string) : option string :=
  dict_get (reverse ps) k.

(** The triggers of a dataset, in the order of the file *)
Definition triggers_of (ps : list (string * string)) (dataset : string)
  : list string :=
  (List.filter (fun p => String.eqb p.1 dataset) ps).*2.

(** A line of white space only *)
Definition blank (l : string) : bool := all_chars Py.isspace l.

(** One assignment of the loop of [populate_fwyzard] *)
Definition add_trigger (tbl : gmap string (list string)) (p : string * string)
  : gmap string (list string) :=
  match tbl !! p.1 with
  | Some triggers => <[p.1 := triggers ++ [p.2]]> tbl
  | None => <[p.1 := [p.2]]> tbl
  end.

(** Ascending in the order of [str] *)
Fixpoint is_sorted (l : list string) : bool :=
  match l with
  | [] => true
  | x :: l' =>
      match l' with
      | [] => true
      | y :: _ => String.leb x y && is_sorted l'
      end
  end.

(** The message [populate_runnumber_cache] prints for a repeated dataset *)
Definition is_repeat_message (l : string) : bool :=
  Py.startswith l "[ERROR] "
  && Py.endswith l " existing several times in the input file.".

(** [c in s] for a character *)
Fixpoint has_char (c : ascii) (s : string) : bool :=
  match s with
  | "" => false
  | String x s' => Ascii.eqb x c || has_char c s'
  end.

(** ** Deep JSON search *)

Section json_induction.
Variable P : json → Prop.
Hypothesis Hnull : P JNull.
Hypothesis Hbool : ∀ b, P (JBool b).
Hypothesis Hint : ∀ n, P (JInt n).
Hypothesis Hfloat : ∀ f, P (JFloat f).
Hypothesis Hstr : ∀ s, P (JStr s).
Hypothesis Hlist : ∀ l, Forall P l → P (JList l).
Hypothesis Hdict : ∀ kvs, Forall (fun kv => P kv.2) kvs → P (JDict kvs).

Fixpoint json_nested_ind (j : json) : P j :=
  match j with
  | JNull => Hnull
  | JBool b => Hbool b
  | JInt n => Hint n
  | JFloat f => Hfloat f
  | JStr s => Hstr s
  | JList l =>
      Hlist l ((fix go (l : list json) : Forall P l :=
                  match l with
                  | [] => List.Forall_nil _
                  | x :: l' => @List.Forall_cons _ P x l' (json_nested_ind x) (go l')
                  end) l)
  | JDict kvs =>
      Hdict kvs ((fix go (kvs : list (string * json))
                    : Forall (fun kv => P kv.2) kvs :=
                    match kvs with
                    | [] => List.Forall_nil _
                    | kv :: kvs' =>
                        @List.Forall_cons _ (fun kv => P kv.2) kv kvs'
                          (json_nested_ind kv.2) (go kvs')
                    end) kvs)
  end.
End json_induction.

Lemma get_from_deep_json_list l akey :
  get_from_deep_json (JList l) akey = default JNull (for_elem akey l).
Proof. reflexivity. Qed.

Lemma get_from_deep_json_dict kvs akey :
  get_from_deep_json (JDict kvs) akey =
  match dict_get kvs akey with
  | Some v => v
  | None => default JNull (for_val akey kvs)
  end.
Proof. reflexivity. Qed.

Lemma first_found_list l k :
  first_found (JList l) k = first_in_elems k l.
Proof. reflexivity. Qed.

Lemma first_found_dict kvs k :
  first_found (JDict kvs) k =
  match dict_get kvs k with
  | Some v => Some v
  | None => first_in_values k kvs
  end.
Proof. reflexivity. Qed.

Lemma bound_values_list_cons e l k :
  bound_values (JList (e :: l)) k = bound_values e k ++ bound_values (JList l) k.
Proof. reflexivity. Qed.

Lemma bound_values_dict_cons k' v kvs k :
  bound_values (JDict ((k', v) :: kvs)) k =
  (if String.eqb k' k then [v] else [])
  ++ bound_values v k ++ bound_values (JDict kvs) k.
Proof. reflexivity. Qed.

Lemma dict_get_bound kvs k v :
  dict_get kvs k = Some v → v ∈ bound_values (JDict kvs) k.
Proof.
  induction kvs as [|[k' v'] kvs IH]; [discriminate|].
  rewrite bound_values_dict_cons. cbn [dict_get].
  destruct (String.eqb k' k).
  - intros [= ->]. apply elem_of_app. left. apply list_elem_of_here.
  - intros H. apply elem_of_app. right. apply elem_of_app. right. auto.
Qed.

Lemma first_found_bound data k v :
  first_found data k = Some v → v ∈ bound_values data k.
Proof.
  revert v. induction data as [| | | | |l IH|kvs IH] using json_nested_ind;
    intros v; try discriminate.
  - rewrite first_found_list.
    induction IH as [|e l He _ IHl]; [discriminate|].
    rewrite bound_values_list_cons. cbn [first_in_elems].
    destruct (first_found e k) as [x|] eqn:E.
    + intros [= ->]. apply elem_of_app. left. auto.
    + intros H. apply elem_of_app. right. auto.
  - rewrite first_found_dict.
    destruct (dict_get kvs k) as [x|] eqn:E.
    { intros [= ->]. by apply dict_get_bound. }
    clear E. induction IH as [|[k' e] kvs He _ IHl]; [discriminate|].
    rewrite bound_values_dict_cons. cbn [first_in_values]. cbn [snd] in He.
    destruct (first_found e k) as [x|] eqn:E.
    + intros [= ->]. apply elem_of_app. right. apply elem_of_app. left. auto.
    + intros H. apply elem_of_app. right. apply elem_of_app. right. auto.
Qed.

Lemma for_elem_truthy k l a : for_elem k l = Some a → truthy a = true.
Proof.
  induction l as [|e l IH]; [discriminate|]. cbn [for_elem].
  destruct (truthy (get_from_deep_json e k)) eqn:E; [|exact IH].
  by intros [= <-].
Qed.

(** One step of either loop of the search agrees with [first_found] when
    the recursive call does and every value it can find is true. *)
Lemma search_step (e : json) (k : string) (rest rest' : option json) :
  get_from_deep_json e k = default JNull (first_found e k) →
  (∀ v, first_found e k = Some v → truthy v = true) →
  rest = rest' →
  (if truthy (get_from_deep_json e k)
   then Some (get_from_deep_json e k) else rest) =
  match first_found e k with
  | Some x => Some x
  | None => rest'
  end.
Proof.
  intros -> Ht ->. destruct (first_found e k) as [v|]; cbn.
  - by rewrite (Ht v eq_refl).
  - reflexivity.
Qed.

Lemma for_elem_first_found k l :
  Forall (fun e =>
    Forall (fun v => truthy v = true) (bound_values e k) →
    get_from_deep_json e k = default JNull (first_found e k)) l →
  Forall (fun v => truthy v = true) (bound_values (JList l) k) →
  for_elem k l = first_in_elems k l.
Proof.
  induction 1 as [|e l He _ IHl]; [reflexivity|].
  rewrite bound_values_list_cons, Forall_app. intros [Hv Hvs].
  cbn [for_elem first_in_elems]. cbv zeta. apply search_step; auto.
  intros v Hf. apply first_found_bound in Hf.
  by apply (proj1 (Forall_forall _ _) Hv).
Qed.

(** When every value bound to the key is true in Python's sense, the
    search returns the first value in depth-first order, and [None] when
    there is none. *)
Lemma get_from_deep_json_first_truthy data k :
  Forall (fun v => truthy v = true) (bound_values data k) →
  get_from_deep_json data k = default JNull (first_found data k).
Proof.
  induction data as [| | | | |l IH|kvs IH] using json_nested_ind;
    try reflexivity.
  - intros Hv. rewrite get_from_deep_json_list, first_found_list.
    by rewrite for_elem_first_found.
  - intros Hv. rewrite get_from_deep_json_dict, first_found_dict.
    destruct (dict_get kvs k) as [x|]; [reflexivity|]. f_equal.
    induction IH as [|[k' e] kvs He _ IHl]; [reflexivity|].
    rewrite bound_values_dict_cons in Hv.
    apply Forall_app in Hv as [_ Hv]. apply Forall_app in Hv as [Hv Hvs].
    cbn [snd] in He. specialize (IHl Hvs).
    assert (Ht : ∀ v, first_found e k = Some v → truthy v = true).
    { intros v Hf. apply first_found_bound in Hf.
      by apply (proj1 (Forall_forall _ _) Hv). }
    cbn [for_val first_in_values]. cbv zeta.
    destruct e; try exact IHl.
    + (* a list value: its elements are searched in place *)
      specialize (He Hv).
      rewrite get_from_deep_json_list, first_found_list in He.
      rewrite first_found_list in Ht |- *.
      destruct (for_elem k l) as [a|] eqn:Ea,
               (first_in_elems k l) as [x|] eqn:Ex; cbn in He.
      * by rewrite He.
      * apply for_elem_truthy in Ea. by rewrite He in Ea.
      * pose proof (Ht x eq_refl) as Hx. by rewrite <- He in Hx.
      * exact IHl.
    + by apply search_step; auto.
Qed.

(** A key bound nowhere is answered by [None]. *)
Lemma get_from_deep_json_absent data k :
  bound_values data k = [] → get_from_deep_json data k = JNull.
Proof.
  intros Hb. rewrite get_from_deep_json_first_truthy by (rewrite Hb; constructor).
  destruct (first_found data k) as [v|] eqn:E; [|reflexivity].
  apply first_found_bound in E. rewrite Hb in E. by apply elem_of_nil in E.
Qed.

(** C1. The search does not always return the first value found: a
    nested hit that is false in Python's sense (here the integer 0) is
    passed over.  On [das_doc_zero_events] the key occurs, its first value
    in depth-first order is 0, and the function returns 5, the next one;
    on a document with only the zero it returns [None]. *)
Theorem deep_json_skips_false_hit :
  first_found das_doc_zero_events "nevents" = Some (JInt 0) ∧
  get_from_deep_json das_doc_zero_events "nevents" = JInt 5 ∧
  first_found (JDict [("das", JDict [("nevents", JInt 0)])]) "nevents"
    = Some (JInt 0) ∧
  get_from_deep_json (JDict [("das", JDict [("nevents", JInt 0)])]) "nevents"
    = JNull.
Proof. repeat split; reflexivity. Qed.

(** ** The dataset identifier pattern *)

Lemma append_assoc (a b c : string) : (a +:+ b) +:+ c = a +:+ b +:+ c.
Proof. induction a as [|x a IH]; simpl; [reflexivity|]. by f_equal. Qed.

Lemma append_nil_r (a : string) : a +:+ "" = a.
Proof. induction a as [|x a IH]; simpl; [reflexivity|]. by f_equal. Qed.

Lemma length_append (a b : string) :
  String.length (a +:+ b) = (String.length a + String.length b)%nat.
Proof. induction a as [|x a IH]; simpl; [reflexivity|]. by f_equal. Qed.

Lemma star_greedy_sound {A} (k : string → string → option A) s x :
  Re.star_greedy k s = Some x → ∃ p r, s = p +:+ r ∧ k p r = Some x.
Proof.
  revert k. induction s as [|c s IH]; intros k; cbn.
  - intros H. by exists "", "".
  - destruct (Ascii.eqb c Py.nl).
    { intros H. by exists "", (String c s). }
    destruct (Re.star_greedy _ s) as [y|] eqn:E.
    + intros [= ->]. apply IH in E as (p & r & -> & Hk).
      by exists (String c p), r.
    + intros H. by exists "", (String c s).
Qed.

Lemma star_lazy_sound {A} (k : string → string → option A) s x :
  Re.star_lazy k s = Some x → ∃ p r, s = p +:+ r ∧ k p r = Some x.
Proof.
  revert k. induction s as [|c s IH]; intros k; cbn.
  - destruct (k "" "") eqn:E; [|discriminate].
    intros [= ->]. by exists "", "".
  - destruct (k "" (String c s)) eqn:E.
    { intros [= ->]. by exists "", (String c s). }
    destruct (Ascii.eqb c Py.nl); [discriminate|].
    intros H. apply IH in H as (p & r & -> & Hk).
    by exists (String c p), r.
Qed.

Lemma lit_sound {A} c (k : string → option A) s x :
  Re.lit c k s = Some x → ∃ r, s = String c r ∧ k r = Some x.
Proof.
  destruct s as [|c' s]; cbn; [discriminate|].
  destruct (Ascii.eqb_spec c' c) as [->|]; [|discriminate]. eauto.
Qed.

Lemma at_end_cases r :
  Re.at_end r = true → r = "" ∨ r = String Py.nl "".
Proof.
  unfold Re.at_end. intros [H|H]%orb_prop; apply String.eqb_eq in H; auto.
Qed.

(** An accepted string is its four groups with their separators, then
    nothing or one final newline. *)
Lemma dataset_match_shape s a b c d :
  Re.dataset_match s = Some (a, b, c, d) →
  s = rebuild a b c d ∨ s = rebuild a b c d +:+ String Py.nl "".
Proof.
  unfold Re.dataset_match, rebuild. intros H.
  apply lit_sound in H as (r0 & -> & H).
  apply star_greedy_sound in H as (g1 & r1 & -> & H).
  apply lit_sound in H as (r2 & -> & H).
  apply star_lazy_sound in H as (g2 & r3 & -> & H).
  apply lit_sound in H as (r4 & -> & H).
  apply star_lazy_sound in H as (g3 & r5 & -> & H).
  apply lit_sound in H as (r6 & -> & H).
  apply star_greedy_sound in H as (g4 & r7 & -> & H).
  destruct (Re.at_end r7) eqn:E; [|discriminate].
  injection H as -> -> -> ->.
  cbn. rewrite !append_assoc. cbn.
  apply at_end_cases in E as [-> | ->]; [left|right].
  - f_equal. repeat (rewrite ?append_assoc; cbn). by rewrite append_nil_r.
  - f_equal. repeat (rewrite ?append_assoc; cbn). reflexivity.
Qed.

Lemma endswith_append p suf : Py.endswith (p +:+ suf) suf = true.
Proof.
  induction p as [|c p IH]; simpl.
  - destruct suf; simpl; rewrite ?String.eqb_refl, ?Ascii.eqb_refl; reflexivity.
  - rewrite IH. apply orb_true_r.
Qed.

Lemma endswith_spec s suf :
  Py.endswith s suf = true ↔ ∃ p, s = p +:+ suf.
Proof.
  split.
  - induction s as [|c s IH].
    + cbn [Py.endswith]. rewrite orb_false_r.
      intros H%String.eqb_eq. subst suf. by exists "".
    + cbn [Py.endswith]. intros [H|H]%orb_prop.
      * apply String.eqb_eq in H. subst suf. by exists "".
      * destruct (IH H) as [p ->]. by exists (String c p).
  - intros [p ->]. apply endswith_append.
Qed.

(** C2 (as stated, refuted). The pattern also accepts an identifier
    followed by one newline, whose four groups leave the newline out: the
    groups of the identifier with a newline after its tier do not give it
    back. *)
Lemma dataset_roundtrip_fails_on_trailing_newline :
  ¬ (∀ s a b c d, Re.dataset_match s = Some (a, b, c, d) → rebuild a b c d = s).
Proof.
  intros H.
  specialize (H ("/ZeroBias/Run2015E-PromptReco-v1/AOD" +:+ String Py.nl "")
                "ZeroBias" "Run2015E" "PromptReco-v1" "AOD" eq_refl).
  discriminate H.
Qed.

(** C2 (amended). For every string the four-part pattern accepts that
    does not end in a newline, putting the four groups back together with
    their separators gives the string itself. *)
Theorem dataset_roundtrip s a b c d :
  Re.dataset_match s = Some (a, b, c, d) →
  Py.endswith s (String Py.nl "") = false →
  rebuild a b c d = s.
Proof.
  intros Hm Hnl. destruct (dataset_match_shape _ _ _ _ _ Hm) as [->| ->].
  - reflexivity.
  - by rewrite endswith_append in Hnl.
Qed.

Lemma rstrip_last_char s c :
  last_char (Py.rstrip s) = Some c → Py.isspace c = false.
Proof.
  induction s as [|x s IH]; [discriminate|]. cbn [Py.rstrip].
  destruct (Py.rstrip s) as [|y r] eqn:E.
  - destruct (Py.isspace x) eqn:Ex; [discriminate|]. by intros [= <-].
  - exact IH.
Qed.

Lemma strip_no_trailing_newline s :
  Py.endswith (Py.strip s) (String Py.nl "") = false.
Proof.
  destruct (Py.endswith _ _) eqn:E; [|reflexivity].
  apply endswith_spec in E as [p E].
  assert (Hl : last_char (Py.strip s) = Some Py.nl).
  { rewrite E. clear. induction p as [|c p IH]; [reflexivity|].
    change (String c p +:+ String Py.nl "") with (String c (p +:+ String Py.nl "")).
    cbn [last_char]. by destruct p. }
  apply rstrip_last_char in Hl. discriminate Hl.
Qed.

(** The identifiers [main] hands to [create_record] are stripped lines, so
    for them the round trip is exact. *)
Lemma dataset_roundtrip_stripped l a b c d :
  Re.dataset_match (Py.strip l) = Some (a, b, c, d) →
  rebuild a b c d = Py.strip l.
Proof.
  intros Hm. destruct (dataset_match_shape _ _ _ _ _ Hm) as [->|E]; [reflexivity|].
  pose proof (strip_no_trailing_newline l) as Hnl.
  rewrite E in Hnl at 1. by rewrite endswith_append in Hnl.
Qed.

(** ** Year and run descriptor *)


Lemma prefix_append (y r : string) : String.prefix y (y +:+ r) = true.
Proof.
  induction y as [|c y IH]; simpl; [by destruct r|].
  destruct (ascii_dec c c); [exact IH|congruence].
Qed.

Lemma replace_go_skip old new a r :
  Py.replace_go old new (String.length a) (a +:+ r) = Py.replace_go old new 0 r.
Proof. induction a as [|c a IH]; simpl; [reflexivity|exact IH]. Qed.

Lemma replace_go_no_digit d y r :
  Py.isdigit d = true → no_digit r = true →
  Py.replace_go (String d y) "" 0 r = r.
Proof.
  intros Hd. induction r as [|c r IH]; [reflexivity|].
  cbn [no_digit]. intros [Hc Hr]%andb_prop.
  cbn [Py.replace_go String.prefix].
  destruct (ascii_dec d c) as [->|_].
  - by rewrite Hd in Hc.
  - by rewrite IH.
Qed.

Lemma replace_go_no_digit_prefix d y p r :
  Py.isdigit d = true → no_digit p = true →
  Py.replace_go (String d y) "" 0 (p +:+ r) =
  p +:+ Py.replace_go (String d y) "" 0 r.
Proof.
  intros Hd. induction p as [|c p IH]; [reflexivity|].
  cbn [no_digit]. intros [Hc Hp]%andb_prop.
  change (String c p +:+ r) with (String c (p +:+ r)).
  cbn [Py.replace_go String.prefix].
  destruct (ascii_dec d c) as [->|_].
  - by rewrite Hd in Hc.
  - rewrite IH by done. reflexivity.
Qed.

Lemma substring_append n (p y r : string) :
  String.length p = n →
  String.substring n (String.length y) (p +:+ y +:+ r) = y.
Proof.
  revert n. induction p as [|c p IH]; intros n <-; simpl.
  - clear. induction y as [|c y IH]; simpl; [by destruct r|]. by rewrite IH.
  - by apply IH.
Qed.


(** ** Numeric metrics *)

Lemma get_das_store_json_missing w dataset :
  fs w !! das_store_path dataset = None →
  get_das_store_json w dataset = Raise FileNotFoundError.
Proof. intros H. unfold get_das_store_json, read_file. by rewrite H. Qed.

Lemma get_das_store_json_found w dataset text doc :
  fs w !! das_store_path dataset = Some text →
  json_loads text = Some doc →
  get_das_store_json w dataset = Ok doc.
Proof.
  intros H1 H2. unfold get_das_store_json, read_file. rewrite H1. cbn.
  by rewrite H2.
Qed.

(** A dataset with no document in the DAS store: the three lookups raise. *)
Lemma numeric_metrics_missing_document w dataset :
  fs w !! das_store_path dataset = None →
  get_number_events w dataset = Raise FileNotFoundError ∧
  get_number_files w dataset = Raise FileNotFoundError ∧
  get_size w dataset = Raise FileNotFoundError.
Proof.
  intros H. unfold get_number_events, get_number_files, get_size.
  by rewrite get_das_store_json_missing.
Qed.

(** C3 (amended). For every dataset whose document is in the DAS store
    and binds the metric keys nowhere, [get_number_events],
    [get_number_files] and [get_size] each return 0 and raise no error. *)
Theorem numeric_metrics_default_zero w dataset text doc :
  fs w !! das_store_path dataset = Some text →
  json_loads text = Some doc →
  bound_values doc "nevents" = [] →
  bound_values doc "nfiles" = [] →
  bound_values doc "size" = [] →
  get_number_events w dataset = Ok (JInt 0) ∧
  get_number_files w dataset = Ok (JInt 0) ∧
  get_size w dataset = Ok (JInt 0).
Proof.
  intros Hf Hj He Hn Hs.
  unfold get_number_events, get_number_files, get_size.
  rewrite (get_das_store_json_found _ _ _ _ Hf Hj). cbn.
  by rewrite !get_from_deep_json_absent.
Qed.

(** ** Identifiers that do not parse *)

Lemma create_record_unparsed g w recid dataset_full_name out :
  Re.dataset_match dataset_full_name = None →
  create_record g w recid dataset_full_name out = (out, Raise NameError).
Proof. intros H. unfold create_record. by rewrite H. Qed.

(** C4. An identifier without its leading slash does not match the
    pattern.  [create_record] then stops with [NameError], raised while
    the diagnostic is being formatted: nothing is printed, neither the
    message naming the dataset nor a record, and [sys.exit] is not
    reached.  The same holds for a whole run of [create_records] over a
    list that holds such an identifier first. *)
Theorem create_record_bad_identifier g w recid rest out :
  Re.dataset_match "ZeroBias/Run2015E-PromptReco-v1/AOD" = None ∧
  create_record g w recid "ZeroBias/Run2015E-PromptReco-v1/AOD" out
    = (out, Raise NameError) ∧
  create_records g w ("ZeroBias/Run2015E-PromptReco-v1/AOD" :: rest) out
    = (out, Raise NameError).
Proof. repeat split; reflexivity. Qed.

(** ** DOI lookup *)

(** C8. [get_doi(d)] raises [KeyError] exactly when [d] is not a key of
    the DOI table, and otherwise returns the DOI the table maps [d] to. *)
Theorem get_doi_strict g d :
  (get_doi g d = Raise KeyError ↔ DOI_INFO g !! d = None) ∧
  (∀ doi, DOI_INFO g !! d = Some doi ↔ get_doi g d = Ok doi).
Proof.
  unfold get_doi. destruct (DOI_INFO g !! d) as [v|]; split; try split;
    try done; try (intros ?; split); try congruence.
Qed.

(** ** The run-number cache *)

Lemma runnumber_lines_app a b :
  runnumber_lines (a ++ b) = foldl runnumber_step (runnumber_lines a) b.
Proof. unfold runnumber_lines. apply foldl_app. Qed.

Lemma runnumber_values_keep_cache st vals :
  Forall (fun v => Py.startswith (Py.strip v) "/" = false) vals →
  rn_cache (foldl runnumber_step st vals) = rn_cache st.
Proof.
  intros H. revert st. induction H as [|v vals Hv _ IH]; intros st.
  - reflexivity.
  - cbn [foldl]. rewrite IH. unfold runnumber_step. by rewrite Hv.
Qed.

(** Every key of the cache, and the header being read, is a line seen so
    far or the empty name the loop starts with. *)
Lemma runnumber_keys_seen lines :
  let st := runnumber_lines lines in
  (∀ k, is_Some (rn_cache st !! k) → k = "" ∨ k ∈ Py.strip <$> lines) ∧
  (rn_dataset st = "" ∨ rn_dataset st ∈ Py.strip <$> lines).
Proof.
  induction lines as [|line lines IH] using rev_ind.
  - cbn. split; [|by left]. intros k [v Hv]. by rewrite lookup_empty in Hv.
  - cbn zeta in *. rewrite runnumber_lines_app. cbn [foldl].
    destruct IH as [Hkeys Hds]. set (st := runnumber_lines lines) in *.
    assert (Hmono : ∀ k, k = "" ∨ k ∈ Py.strip <$> lines →
                         k = "" ∨ k ∈ Py.strip <$> (lines ++ [line])).
    { intros k [->|Hk]; [by left|right].
      rewrite fmap_app. apply elem_of_app. by left. }
    unfold runnumber_step.
    destruct (Py.startswith (Py.strip line) "/"); cbn.
    + split.
      * intros k Hk. apply Hmono.
        destruct (rn_cache st !! rn_dataset st) eqn:E; cbn in Hk.
        { by apply Hkeys. }
        destruct (rn_values st); cbn in Hk; [by apply Hkeys|].
        destruct (decide (rn_dataset st = k)) as [<-|Hne]; [exact Hds|].
        rewrite lookup_insert_ne in Hk by done. by apply Hkeys.
      * right. rewrite fmap_app. apply elem_of_app. right. cbn.
        apply list_elem_of_here.
    + split; auto.
Qed.



(** ** Checksums *)

Lemma adler32_go_bounds data a b :
  0 ≤ a < 65521 → 0 ≤ b < 65521 →
  0 ≤ (adler32_go a b data).1 < 65521 ∧ 0 ≤ (adler32_go a b data).2 < 65521.
Proof.
  revert a b. induction data as [|c data IH]; intros a b Ha Hb; cbn.
  - done.
  - apply IH; apply Z.mod_pos_bound; lia.
Qed.

Lemma adler32_range data : 0 ≤ adler32 data 1 < 2 ^ 32.
Proof.
  unfold adler32.
  change (Z.land 1 65535) with 1. change (Z.land (Z.shiftr 1 16) 65535) with 0.
  destruct (adler32_go_bounds data 1 0) as [Ha Hb]; [lia..|].
  destruct (adler32_go 1 0 data) as [a b]. cbn [fst snd] in *.
  assert (Hs : 0 ≤ Z.shiftl b 16 < 2 ^ 32).
  { rewrite Z.shiftl_mul_pow2 by lia. lia. }
  assert (Hn : 0 ≤ Z.lor (Z.shiftl b 16) a) by (apply Z.lor_nonneg; lia).
  split; [exact Hn|].
  destruct (Z.eq_dec (Z.lor (Z.shiftl b 16) a) 0) as [->|Hz]; [lia|].
  apply Z.log2_lt_pow2; [lia|].
  rewrite Z.log2_lor by lia.
  apply Z.max_lub_lt.
  - destruct (Z.eq_dec (Z.shiftl b 16) 0) as [->|?]; [done|].
    apply Z.log2_lt_pow2; lia.
  - destruct (Z.eq_dec a 0) as [->|?]; [done|].
    apply Z.log2_lt_pow2; lia.
Qed.

Lemma adler32_mask data : Z.land (adler32 data 1) 4294967295 = adler32 data 1.
Proof.
  change 4294967295 with (Z.ones 32). rewrite Z.land_ones by lia.
  apply Z.mod_small, adler32_range.
Qed.

Lemma zeros_snoc j acc : zeros j +:+ String "0" acc = String "0" (zeros j +:+ acc).
Proof. induction j as [|j IH]; simpl; [reflexivity|]. by rewrite IH. Qed.

Lemma length_zeros j : String.length (zeros j) = j.
Proof. induction j as [|j IH]; simpl; [reflexivity|]. by rewrite IH. Qed.

Lemma hex_fixed_zero k acc : hex_fixed k 0 acc = zeros k +:+ acc.
Proof.
  revert acc. induction k as [|k IH]; intros acc; [reflexivity|].
  cbn [hex_fixed]. change (0 / 16) with 0. change (hexdigit (0 mod 16)) with "0"%char.
  rewrite IH. apply zeros_snoc.
Qed.

Lemma length_hex_fixed k n acc :
  String.length (hex_fixed k n acc) = (k + String.length acc)%nat.
Proof.
  revert n acc. induction k as [|k IH]; intros n acc; [reflexivity|].
  cbn [hex_fixed]. rewrite IH. cbn. lia.
Qed.

Lemma hexdigit_lower d : 0 ≤ d < 16 → is_lower_hex (hexdigit d) = true.
Proof.
  intros Hd.
  assert (∃ k, (k < 16)%nat ∧ d = Z.of_nat k) as (k & Hk & ->)
    by (exists (Z.to_nat d); lia).
  do 16 (destruct k as [|k]; [reflexivity|]). lia.
Qed.

Lemma hex_fixed_lower k : ∀ n acc,
  all_chars is_lower_hex acc = true →
  all_chars is_lower_hex (hex_fixed k n acc) = true.
Proof.
  induction k as [|k IH]; intros n acc Hacc; [exact Hacc|].
  cbn [hex_fixed]. apply IH. cbn [all_chars].
  rewrite hexdigit_lower by (apply Z.mod_pos_bound; lia). exact Hacc.
Qed.

Lemma hex_fixed_S w n acc :
  hex_fixed (S w) n acc = hex_fixed w (n / 16) (String (hexdigit (n mod 16)) acc).
Proof. reflexivity. Qed.

Lemma hex_go_S fuel n acc :
  hex_go (S fuel) n acc =
  if n / 16 =? 0 then String (hexdigit (n mod 16)) acc
  else hex_go fuel (n / 16) (String (hexdigit (n mod 16)) acc).
Proof. reflexivity. Qed.

(** The digits [hex] prints are the fixed-width ones without their
    leading zeros. *)
Lemma hex_fixed_go k : ∀ n acc fuel,
  0 ≤ n < 16 ^ Z.of_nat (S k) → n < 16 ^ Z.of_nat (S fuel) →
  ∃ j, hex_fixed (S k) n acc = zeros j +:+ hex_go (S fuel) n acc ∧
       (String.length (hex_go (S fuel) n acc) + j = S k + String.length acc)%nat.
Proof.
  induction k as [|k IH]; intros n acc fuel Hn Hf.
  - exists 0%nat. rewrite hex_fixed_S, hex_go_S.
    replace (n / 16) with 0 by (symmetry; apply Z.div_small; lia).
    cbn. split; [reflexivity|lia].
  - rewrite hex_fixed_S, hex_go_S. destruct (Z.eqb_spec (n / 16) 0) as [Hz|Hz].
    + rewrite Hz, hex_fixed_zero.
      exists (S k). split; [reflexivity|]. cbn. lia.
    + assert (Hq : 0 ≤ n / 16 < 16 ^ Z.of_nat (S k)).
      { split; [apply Z.div_pos; lia|].
        apply Z.div_lt_upper_bound; [lia|].
        rewrite <- Z.pow_succ_r by lia. rewrite <- Nat2Z.inj_succ. apply Hn. }
      destruct fuel as [|fuel].
      { exfalso. apply Hz, Z.div_small. change (16 ^ Z.of_nat 1) with 16 in Hf. lia. }
      assert (Hq' : n / 16 < 16 ^ Z.of_nat (S fuel)).
      { apply Z.div_lt_upper_bound; [lia|].
        rewrite <- Z.pow_succ_r by lia. rewrite <- Nat2Z.inj_succ. exact Hf. }
      destruct (IH (n / 16) (String (hexdigit (n mod 16)) acc) fuel Hq Hq')
        as (j & -> & Hlen).
      exists j. split; [reflexivity|]. cbn [String.length] in Hlen. lia.
Qed.

Lemma hexdigit_not_sign d :
  0 ≤ d < 16 →
  Ascii.eqb (hexdigit d) "+" || Ascii.eqb (hexdigit d) "-" = false.
Proof.
  intros Hd.
  assert (∃ k, (k < 16)%nat ∧ d = Z.of_nat k) as (k & Hk & ->)
    by (exists (Z.to_nat d); lia).
  do 16 (destruct k as [|k]; [reflexivity|]). lia.
Qed.

Lemma hex_go_head fuel : ∀ n acc,
  0 ≤ n →
  ∃ d rest, hex_go (S fuel) n acc = String (hexdigit d) rest ∧ 0 ≤ d < 16.
Proof.
  induction fuel as [|fuel IH]; intros n acc Hn; rewrite hex_go_S.
  - exists (n mod 16). destruct (n / 16 =? 0); cbn [hex_go]; eexists;
      (split; [reflexivity|apply Z.mod_pos_bound; lia]).
  - destruct (n / 16 =? 0).
    + exists (n mod 16). eexists. split; [reflexivity|apply Z.mod_pos_bound; lia].
    + apply IH. apply Z.div_pos; lia.
Qed.

Lemma substring_all s : String.substring 0 (String.length s) s = s.
Proof. induction s as [|c s IH]; simpl; [reflexivity|]. by rewrite IH. Qed.

(** The text [get_file_checksum] builds is the fixed-width digest. *)
Lemma checksum_text content :
  zfill 8 (drop_chars 2 (hex (Z.land (adler32 content 1) 4294967295)))
  = hex8 (adler32 content 1).
Proof.
  rewrite adler32_mask.
  pose proof (adler32_range content) as Hr. set (m := adler32 content 1) in *.
  unfold hex. destruct (Z.ltb_spec m 0) as [?|_]; [lia|].
  rewrite Z.abs_eq by lia. set (fuel := Z.to_nat (Z.log2 m)).
  change ("0x" +:+ hex_go (S fuel) m "")
    with (String "0" (String "x" (hex_go (S fuel) m ""))).
  unfold drop_chars. cbn [String.length Nat.sub String.substring].
  rewrite Nat.sub_0_r, substring_all.
  assert (Hfuel : m < 16 ^ Z.of_nat (S fuel)).
  { destruct (Z.eq_dec m 0) as [->|Hm]; [done|].
    pose proof (Z.log2_spec m ltac:(lia)) as [_ Hlt].
    pose proof (Z.log2_nonneg m) as Hl.
    replace (Z.of_nat (S fuel)) with (Z.succ (Z.log2 m)) by (unfold fuel; lia).
    eapply Z.lt_le_trans; [exact Hlt|].
    apply Z.pow_le_mono_l. lia. }
  destruct (hex_fixed_go 7 m "" fuel) as (j & Hfix & Hlen); [done..|].
  destruct (hex_go_head fuel m "") as (d & rest & Hhead & Hd); [lia|].
  change (hex_fixed 8 m "") with (hex8 m) in Hfix. rewrite Hfix. unfold zfill.
  rewrite Hhead in Hlen |- *. rewrite hexdigit_not_sign by done.
  cbn [String.length] in Hlen.
  replace (8 - String.length (String (hexdigit d) rest))%nat with j
    by (cbn [String.length]; lia).
  reflexivity.
Qed.

Lemma get_file_checksum_hex8 w path content :
  fs w !! path = Some content →
  get_file_checksum w path = Ok (hex8 (adler32 content 1)).
Proof.
  intros Hf. unfold get_file_checksum, read_file. rewrite Hf.
  exact (f_equal Ok (checksum_text content)).
Qed.

(** ** File-index resolution *)

Lemma last_char_append q suf :
  suf ≠ "" → last_char (q +:+ suf) = last_char suf.
Proof.
  intros Hs. induction q as [|c q IH]; [reflexivity|].
  change (String c q +:+ suf) with (String c (q +:+ suf)).
  cbn [last_char]. destruct (q +:+ suf) eqn:E; [|exact IH].
  destruct q; [|discriminate]. cbn in E. congruence.
Qed.

Lemma endswith_last_char s suf :
  suf ≠ "" → Py.endswith s suf = true → last_char s = last_char suf.
Proof.
  intros Hs [p ->]%endswith_spec. by apply last_char_append.
Qed.

Lemma endswith_prefixed pre a suf :
  Py.endswith a suf = true → Py.endswith (pre +:+ a) suf = true.
Proof.
  intros [p ->]%endswith_spec. rewrite <- append_assoc. apply endswith_append.
Qed.

(** The extension of an index file is the extension of its address. *)
Lemma endswith_uri pre a suf :
  is_index_name a = true →
  suf = ".json" ∨ suf = ".txt" →
  Py.endswith (pre +:+ a) suf = Py.endswith a suf.
Proof.
  intros Hi Hsuf. destruct (Py.endswith a suf) eqn:E.
  { by apply endswith_prefixed. }
  destruct (Py.endswith (pre +:+ a) suf) eqn:E'; [exfalso|reflexivity].
  unfold is_index_name in Hi. apply orb_prop in Hi.
  destruct Hsuf as [-> | ->], Hi as [Hi|Hi]; try congruence.
  - apply (endswith_prefixed pre), endswith_last_char in Hi; [|done].
    apply endswith_last_char in E'; [|done]. rewrite E' in Hi. discriminate Hi.
  - apply (endswith_prefixed pre), endswith_last_char in Hi; [|done].
    apply endswith_last_char in E'; [|done]. rewrite E' in Hi. discriminate Hi.
Qed.

Lemma filter_filter_implied {A} (f g : A → bool) l :
  (∀ x, f x = true → g x = true) →
  List.filter f (List.filter g l) = List.filter f l.
Proof.
  intros Hfg. induction l as [|x l IH]; [reflexivity|]. cbn.
  destruct (g x) eqn:Eg; cbn; destruct (f x) eqn:Ef; rewrite ?IH; try done.
  rewrite (Hfg x Ef) in Eg. discriminate.
Qed.

Lemma filter_fmap_ext {A B} (f : B → bool) (h : A → bool) (m : A → B) l :
  Forall (fun x => f (m x) = h x) l →
  List.filter f (m <$> l) = m <$> List.filter h l.
Proof.
  induction 1 as [|x l Hx _ IH]; [reflexivity|]. cbn. rewrite Hx, IH.
  by destruct (h x).
Qed.

Lemma filter_Forall_bool {A} (g : A → bool) (l : list A) :
  Forall (fun x => g x = true) (List.filter g l).
Proof.
  induction l as [|x l IH]; cbn; [constructor|].
  destruct (g x) eqn:E; [by constructor|exact IH].
Qed.

Lemma index_names_split (l : list string) :
  ∀ a, a ∈ List.filter is_index_name l →
       a ∈ List.filter (fun a => Py.endswith a ".json") l
          ++ List.filter (fun a => Py.endswith a ".txt") l.
Proof.
  intros a. rewrite elem_of_app, !list_elem_of_In, !filter_In.
  unfold is_index_name. intros [Hin [H|H]%orb_prop]; auto.
Qed.

Lemma get_file_size_found w path content :
  fs w !! path = Some content →
  get_file_size w path = Ok (Z.of_nat (String.length content)).
Proof. intros Hf. unfold get_file_size, read_file. by rewrite Hf. Qed.

(** The loop of the resolver, from any list of files found so far *)
Lemma index_files_loop w full lines acc :
  Forall (fun a => is_Some (fs w !! index_file_path a))
    (List.filter is_index_name (Py.strip <$> lines)) →
  for_each (fun files line =>
      let afile := Py.strip line in
      if Py.endswith afile ".txt" || Py.endswith afile ".json" then
        let afile_uri :=
          XROOTD_URI_BASE +:+ get_dataset_location full
          +:+ "/file-indexes/" +:+ afile in
        afile_size ← get_file_size w (index_file_path afile);
        afile_checksum ← get_file_checksum w (index_file_path afile);
        Ok (files ++ [IndexFile afile_uri afile_size afile_checksum])
      else Ok files) lines acc
  = Ok (acc ++ (artifact w full <$> List.filter is_index_name (Py.strip <$> lines))).
Proof.
  revert acc. induction lines as [|line lines IH]; intros acc Hex.
  - cbn. by rewrite app_nil_r.
  - cbn [for_each fmap list_fmap List.filter] in *.
    fold (is_index_name (Py.strip line)) in *.
    destruct (is_index_name (Py.strip line)) eqn:E.
    + apply Forall_cons in Hex as [[content Hc] Hex].
      rewrite (get_file_size_found _ _ _ Hc), (get_file_checksum_hex8 _ _ _ Hc).
      cbn [mbind result_bind].
      rewrite IH by exact Hex. rewrite <- app_assoc. cbn.
      unfold artifact at 2, index_content. by rewrite Hc.
    + cbn [mbind result_bind]. by apply IH.
Qed.

Lemma get_dataset_index_files_ok w full :
  Forall (fun a => is_Some (fs w !! index_file_path a))
    (json_names w full ++ txt_names w full) →
  get_dataset_index_files w full
  = Ok (artifact w full <$> List.filter is_index_name (listing w full)).
Proof.
  intros Hex. unfold get_dataset_index_files.
  rewrite index_files_loop; [reflexivity|].
  apply Forall_forall. intros a Ha.
  apply (proj1 (Forall_forall _ _) Hex). by apply index_names_split.
Qed.

Lemma artifact_extension w full a suf :
  is_index_name a = true →
  suf = ".json" ∨ suf = ".txt" →
  Py.endswith (file_uri (artifact w full a)) suf = Py.endswith a suf.
Proof.
  intros Hi Hsuf. cbn [artifact file_uri].
  rewrite <- !append_assoc. by apply endswith_uri.
Qed.

(** The entries of one extension: the files of that extension in listing
    order, numbered from 1. *)
Lemma files_of_type_artifacts w full short fmt suf (l : list string) :
  suf = ".json" ∨ suf = ".txt" →
  files_of_type short fmt (artifact w full <$> List.filter is_index_name l) suf
  = imap (expected_file w full short fmt suf
            (length (List.filter (fun a => Py.endswith a suf) l)))
         (List.filter (fun a => Py.endswith a suf) l).
Proof.
  intros Hsuf. unfold files_of_type.
  rewrite (filter_fmap_ext _ (fun a => Py.endswith a suf)).
  2:{ eapply Forall_impl; [apply filter_Forall_bool|].
      intros a Ha. by apply artifact_extension. }
  rewrite filter_filter_implied.
  2:{ intros a Ha. unfold is_index_name.
      destruct Hsuf as [-> | ->]; rewrite Ha; [apply orb_true_r|reflexivity]. }
  rewrite length_fmap, imap_fmap. apply imap_ext. reflexivity.
Qed.

Lemma record_files_artifacts w full short fmt :
  record_files short fmt
    (artifact w full <$> List.filter is_index_name (listing w full))
  = imap (expected_file w full short fmt ".json" (length (json_names w full)))
      (json_names w full)
    ++ imap (expected_file w full short fmt ".txt" (length (txt_names w full)))
         (txt_names w full).
Proof.
  unfold record_files. cbn [map concat].
  rewrite !files_of_type_artifacts by auto. by rewrite app_nil_r.
Qed.

(** ** The record builder returns *)

Lemma getters_ok w full :
  succeeds (get_das_store_json w full) →
  succeeds (get_number_events w full) ∧
  succeeds (get_number_files w full) ∧
  succeeds (get_size w full).
Proof.
  intros [doc Hd]. unfold get_number_events, get_number_files, get_size.
  rewrite Hd. cbn [mbind result_bind]. unfold succeeds.
  repeat split; match goal with |- context [truthy ?v] => destruct (truthy v) end;
    eauto.
Qed.

(** With its sources in place [create_record] prints nothing and returns
    a record whose [recid], [title], [doi] and [files] are as follows. *)
Lemma create_record_ok g w recid full short runperiod version format out :
  Re.dataset_match full = Some (short, runperiod, version, format) →
  sources_ok g w full short →
  ∃ rec,
    create_record g w recid full out = (out, Ok (JDict rec)) ∧
    dict_get rec "recid" = Some (JStr (Py.str recid)) ∧
    dict_get rec "title" = Some (JStr full) ∧
    dict_get rec "files" = Some (JList (
      imap (expected_file w full short format ".json" (length (json_names w full)))
        (json_names w full)
      ++ imap (expected_file w full short format ".txt" (length (txt_names w full)))
           (txt_names w full))).
Proof.
  intros Hm (Hdas & [doi Hdoi] & [meth Hmeth] & Hfiles).
  destruct (getters_ok _ _ Hdas) as ([ne Hne] & [nf Hnf] & [sz Hsz]).
  unfold create_record. rewrite Hm, Hne, Hnf, Hsz, Hdoi.
  rewrite (get_dataset_index_files_ok _ _ Hfiles), Hmeth.
  unfold lift. cbn [mbind result_bind]. cbv zeta.
  rewrite record_files_artifacts.
  eexists. split; [reflexivity|].
  destruct (RUNNUMBER_CACHE g !! full); repeat split; reflexivity.
Qed.

(** C6. With N [.json] and M [.txt] index files in the directory
    listing of a dataset, the [files] array of its record has N + M
    entries: the [.json] files first, in listing order, described as
    1 to N of N, then the [.txt] files described as 1 to M of M; the
    checksum of each entry is [adler32:] followed by eight lowercase
    hexadecimal digits, those of the Adler-32 sum of the file's content. *)
Theorem record_files_array g w recid full short runperiod version format out N M :
  Re.dataset_match full = Some (short, runperiod, version, format) →
  sources_ok g w full short →
  length (json_names w full) = N →
  length (txt_names w full) = M →
  ∃ rec files,
    create_record g w recid full out = (out, Ok (JDict rec)) ∧
    dict_get rec "files" = Some (JList files) ∧
    length files = (N + M)%nat ∧
    (∀ i a, json_names w full !! i = Some a →
       files !! i = Some (expected_file w full short format ".json" N i a)) ∧
    (∀ j a, txt_names w full !! j = Some a →
       files !! (N + j)%nat
       = Some (expected_file w full short format ".txt" M j a)) ∧
    (∀ a, String.length (hex8 (adler32 (index_content w a) 1)) = 8%nat ∧
          all_chars is_lower_hex (hex8 (adler32 (index_content w a) 1)) = true).
Proof.
  intros Hm Hs HN HM.
  destruct (create_record_ok g w recid _ _ _ _ _ out Hm Hs)
    as (rec & Hrec & _ & _ & Hfiles).
  rewrite HN, HM in Hfiles. eexists rec, _. split; [exact Hrec|].
  split; [exact Hfiles|]. split; [|split; [|split]].
  - rewrite length_app, !length_imap. lia.
  - intros i a Ha. rewrite lookup_app_l.
    + by rewrite list_lookup_imap, Ha.
    + rewrite length_imap. by eapply lookup_lt_Some.
  - intros j a Ha. rewrite lookup_app_r; rewrite length_imap, HN; [|lia].
    replace (N + j - N)%nat with j by lia.
    by rewrite list_lookup_imap, Ha.
  - intros a. split; [apply length_hex_fixed|by apply hex_fixed_lower].
Qed.

(** ** Record numbering *)

Lemma create_records_from_ok g w ids : ∀ recid records out,
  Forall (buildable g w) ids →
  ∃ recs,
    create_records_from g w recid ids records out = (out, Ok (records ++ recs)) ∧
    length recs = length ids ∧
    ∀ i id, ids !! i = Some id →
      ∃ rec, recs !! i = Some (JDict rec) ∧
             dict_get rec "recid" = Some (JStr (Py.str (recid + Z.of_nat i))) ∧
             dict_get rec "title" = Some (JStr id).
Proof.
  induction ids as [|id ids IH]; intros recid records out Hb.
  - exists []. cbn. rewrite app_nil_r. repeat split. intros i id Hi. discriminate Hi.
  - apply Forall_cons in Hb as [(short & rp & ver & fmt & Hm & Hs) Hb].
    destruct (create_record_ok g w recid _ _ _ _ _ out Hm Hs)
      as (rec & Hrec & Hid & Htitle & _).
    destruct (IH (recid + 1) (records ++ [JDict rec]) out Hb)
      as (recs & Hrecs & Hlen & Hall).
    exists (JDict rec :: recs). cbn [create_records_from].
    unfold mbind at 1, prog_bind at 1. rewrite Hrec, Hrecs.
    rewrite <- app_assoc. repeat split; [cbn; lia|].
    intros [|i] id' Hi.
    + injection Hi as <-. exists rec. rewrite Z.add_0_r. by repeat split.
    + destruct (Hall i id' Hi) as (rec' & ? & Hid' & ?). exists rec'.
      repeat split; try done. rewrite Hid'. do 3 f_equal. lia.
Qed.


(** ** The output is a function of the inputs *)

Section same_inputs.
Variables w1 w2 : world.
Hypothesis Hsame : same_inputs w1 w2.

Lemma read_file_same path :
  is_input_path path = true → read_file w1 path = read_file w2 path.
Proof.
  intros Hp. unfold read_file. by rewrite (proj1 Hsame path Hp).
Qed.

Lemma path_exists_same path :
  is_input_path path = true → path_exists w1 path = path_exists w2 path.
Proof.
  intros Hp. unfold path_exists. by rewrite (proj1 Hsame path Hp).
Qed.

Lemma for_each_ext {A S} (f h : S → A → result S) l acc :
  (∀ acc x, f acc x = h acc x) → for_each f l acc = for_each h l acc.
Proof.
  intros Hfh. revert acc. induction l as [|x l IH]; intros acc; [reflexivity|].
  cbn [for_each]. rewrite Hfh. destruct (h acc x); cbn; auto.
Qed.

Lemma populate_fwyzard_same : populate_fwyzard w1 = populate_fwyzard w2.
Proof.
  unfold populate_fwyzard.
  by rewrite path_exists_same, read_file_same.
Qed.

Lemma populate_doiinfo_same : populate_doiinfo w1 = populate_doiinfo w2.
Proof. unfold populate_doiinfo. by rewrite read_file_same. Qed.

Lemma populate_runnumber_cache_same :
  populate_runnumber_cache w1 = populate_runnumber_cache w2.
Proof. unfold populate_runnumber_cache. by rewrite read_file_same. Qed.

Lemma populate_containerimages_cache_same :
  populate_containerimages_cache w1 = populate_containerimages_cache w2.
Proof. unfold populate_containerimages_cache. by rewrite read_file_same. Qed.

Lemma populate_reco_cache_same path :
  is_input_path path = true →
  populate_reco_cache w1 path = populate_reco_cache w2 path.
Proof. intros Hp. unfold populate_reco_cache. by rewrite read_file_same. Qed.

Lemma populate_selection_descriptions_same :
  populate_selection_descriptions w1 = populate_selection_descriptions w2.
Proof.
  unfold populate_selection_descriptions. cbn [for_each].
  by rewrite path_exists_same, read_file_same.
Qed.

Lemma load_link_info_same : load_link_info w1 = load_link_info w2.
Proof. unfold load_link_info. by rewrite (proj1 Hsame). Qed.

Lemma populate_same out : populate w1 out = populate w2 out.
Proof.
  unfold populate, populate_recocmssw_cache, populate_recoglobaltag_cache.
  rewrite populate_fwyzard_same, populate_doiinfo_same,
    populate_runnumber_cache_same, populate_containerimages_cache_same,
    !populate_reco_cache_same, populate_selection_descriptions_same,
    load_link_info_same by reflexivity.
  reflexivity.
Qed.

Lemma get_das_store_json_same dataset :
  get_das_store_json w1 dataset = get_das_store_json w2 dataset.
Proof. unfold get_das_store_json. by rewrite read_file_same. Qed.

Lemma get_dataset_index_files_same full :
  get_dataset_index_files w1 full = get_dataset_index_files w2 full.
Proof.
  unfold get_dataset_index_files. rewrite (proj2 Hsame).
  apply for_each_ext. intros files line. cbv zeta.
  unfold get_file_size, get_file_checksum.
  by rewrite read_file_same.
Qed.

Lemma create_record_same g recid full out :
  create_record g w1 recid full out = create_record g w2 recid full out.
Proof.
  unfold create_record, get_number_events, get_number_files, get_size.
  by rewrite get_das_store_json_same, get_dataset_index_files_same.
Qed.

Lemma create_records_from_same g ids : ∀ recid records out,
  create_records_from g w1 recid ids records out
  = create_records_from g w2 recid ids records out.
Proof.
  induction ids as [|id ids IH]; intros recid records out; [reflexivity|].
  cbn [create_records_from]. unfold mbind, prog_bind.
  rewrite create_record_same.
  destruct (create_record g w2 recid id out) as [out' [rec|e]]; auto.
Qed.

Lemma main_same out : main w1 out = main w2 out.
Proof.
  unfold main, mbind, prog_bind. rewrite populate_same.
  destruct (populate w2 out) as [out' [g|e]]; [|reflexivity].
  unfold lift. rewrite read_file_same by reflexivity.
  destruct (read_file w2 _) as [text|e]; [|reflexivity].
  unfold create_records. by rewrite create_records_from_same.
Qed.
End same_inputs.


(** ** Further properties of the deep search *)

Lemma for_elem_bound k l a :
  Forall (fun e => get_from_deep_json e k = JNull
                   ∨ get_from_deep_json e k ∈ bound_values e k) l →
  for_elem k l = Some a → a ∈ bound_values (JList l) k.
Proof.
  induction 1 as [|e l He _ IH]; [discriminate|].
  rewrite bound_values_list_cons, elem_of_app. cbn [for_elem]. cbv zeta.
  destruct (truthy (get_from_deep_json e k)) eqn:Et.
  - intros [= <-]. left. destruct He as [He|He]; [|exact He].
    rewrite He in Et. discriminate Et.
  - intros Ha. right. by apply IH.
Qed.

Lemma get_from_deep_json_sound data k :
  get_from_deep_json data k = JNull
  ∨ get_from_deep_json data k ∈ bound_values data k.
Proof.
  induction data as [| | | | |l IH|kvs IH] using json_nested_ind;
    try (by left).
  - rewrite get_from_deep_json_list.
    destruct (for_elem k l) as [a|] eqn:E; [right|by left].
    by apply (for_elem_bound k l a IH).
  - rewrite get_from_deep_json_dict.
    destruct (dict_get kvs k) as [v|] eqn:E.
    { right. by apply dict_get_bound. }
    destruct (for_val k kvs) as [a|] eqn:Ea; [right|by left].
    change (a ∈ bound_values (JDict kvs) k). clear E. revert Ea. induction IH as [|[k' e] kvs He _ IHl]; [discriminate|].
    rewrite bound_values_dict_cons, !elem_of_app. cbn [snd] in He.
    cbn [for_val]. cbv zeta. destruct e; try (intros Ha; right; right; by apply IHl).
    + destruct (for_elem k l) as [x|] eqn:Ex.
      * intros [= <-]. right. left.
        destruct He as [He|He]; rewrite get_from_deep_json_list, Ex in He;
          [|exact He].
        cbn in He. apply for_elem_truthy in Ex. rewrite He in Ex. discriminate Ex.
      * intros Ha. right. right. by apply IHl.
    + destruct (truthy (get_from_deep_json (JDict kvs0) k)) eqn:Et.
      * intros [= <-]. right. left. destruct He as [He|He]; [|exact He].
        rewrite He in Et. discriminate Et.
      * intros Ha. right. right. by apply IHl.
Qed.

Lemma for_val_truthy k kvs a : for_val k kvs = Some a → truthy a = true.
Proof.
  induction kvs as [|[k' e] kvs IH]; [discriminate|]. cbn [for_val]. cbv zeta.
  destruct e; try exact IH.
  - destruct (for_elem k l) as [x|] eqn:Ex; [|exact IH].
    intros [= <-]. by apply for_elem_truthy in Ex.
  - destruct (truthy (get_from_deep_json (JDict kvs0) k)) eqn:Et; [|exact IH].
    by intros [= <-].
Qed.

(** X1. What [get_from_deep_json] returns is [None] or a value that some
    mapping inside [data] binds to the key; a key bound nowhere gives
    [None]; and a value found below the outermost mapping is never one
    that Python takes for false. *)
Theorem deep_json_result_is_bound data k :
  (get_from_deep_json data k = JNull
   ∨ get_from_deep_json data k ∈ bound_values data k) ∧
  (bound_values data k = [] → get_from_deep_json data k = JNull) ∧
  (top_hit data k = None →
   get_from_deep_json data k = JNull ∨ truthy (get_from_deep_json data k) = true).
Proof.
  split; [apply get_from_deep_json_sound|]. split.
  - intros Hb. destruct (get_from_deep_json_sound data k) as [H|H]; [exact H|].
    rewrite Hb in H. by apply elem_of_nil in H.
  - destruct data; try (by left); cbn [top_hit].
    + intros _. rewrite get_from_deep_json_list.
      destruct (for_elem k l) as [a|] eqn:E; [right|by left].
      by apply for_elem_truthy in E.
    + intros Hd. rewrite get_from_deep_json_dict, Hd.
      destruct (for_val k kvs) as [a|] eqn:E; [right|by left].
      by apply for_val_truthy in E.
Qed.

Lemma first_found_none data k :
  first_found data k = None → bound_values data k = [].
Proof.
  induction data as [| | | | |l IH|kvs IH] using json_nested_ind;
    try reflexivity.
  - rewrite first_found_list. induction IH as [|e l He _ IHl]; [reflexivity|].
    rewrite bound_values_list_cons. cbn [first_in_elems].
    destruct (first_found e k); [discriminate|].
    intros Hl. by rewrite He, IHl.
  - rewrite first_found_dict.
    destruct (dict_get kvs k) eqn:Ed; [discriminate|].
    revert Ed. induction IH as [|[k' e] kvs He _ IHl]; [reflexivity|].
    rewrite bound_values_dict_cons. cbn [dict_get first_in_values snd] in *.
    destruct (String.eqb k' k); [discriminate|].
    destruct (first_found e k); [discriminate|].
    intros Hd Hl. by rewrite He, IHl.
Qed.

(** X2. When every value bound to the key is true in Python's sense, the
    search returns the first of them in depth-first order, a mapping being
    asked before its values are entered; and it returns [None] exactly
    when the key is bound nowhere. *)
Theorem deep_json_first_value data k :
  Forall (fun v => truthy v = true) (bound_values data k) →
  get_from_deep_json data k = default JNull (first_found data k) ∧
  (get_from_deep_json data k = JNull ↔ bound_values data k = []).
Proof.
  intros Hv. pose proof (get_from_deep_json_first_truthy data k Hv) as Hg.
  split; [exact Hg|]. split.
  - intros Hn. destruct (first_found data k) as [v|] eqn:E.
    + apply first_found_bound in E.
      rewrite Hg in Hn. cbn in Hn. subst v.
      by apply (proj1 (Forall_forall _ _) Hv) in E.
    + by apply first_found_none.
  - by apply get_from_deep_json_absent.
Qed.

(** ** Further properties of the numeric lookups *)

Lemma getter_value_zero_or_true v :
  (if truthy v then Ok v else Ok (JInt 0)) = Ok (JInt 0)
  ∨ ∃ x, (if truthy v then Ok v else Ok (JInt 0)) = Ok x ∧ truthy x = true.
Proof. destruct (truthy v) eqn:E; [right; eauto|by left]. Qed.


Lemma replace_char_no_char s :
  Py.contains (Py.replace_go "/" "@" 0 s) "/" = false ∧
  String.length (Py.replace_go "/" "@" 0 s) = String.length s.
Proof.
  induction s as [|c s [IH1 IH2]]; [done|].
  cbn [Py.replace_go String.prefix String.length Nat.sub].
  destruct (ascii_dec "/" c) as [<-|Hc].
  - replace (String.prefix "" s) with true by (by destruct s).
    cbn [String.append Py.contains String.prefix String.length].
    destruct (ascii_dec "/" "@"); [discriminate|]. cbn [orb]. by rewrite IH1, IH2.
  - cbn [Py.contains String.prefix String.length].
    destruct (ascii_dec "/" c); [done|]. cbn [orb]. by rewrite IH1, IH2.
Qed.

(** X4. The file of a dataset lies directly in the store directory: its
    name is the identifier with every slash replaced, so it holds no
    slash and is as long as the identifier. *)
Theorem das_store_path_flat dataset :
  das_store_path dataset
  = "./inputs/das-json-store/" +:+ das_store_name dataset +:+ ".json" ∧
  Py.contains (das_store_name dataset) "/" = false ∧
  String.length (das_store_name dataset) = String.length dataset.
Proof.
  split; [reflexivity|]. unfold das_store_name, Py.replace.
  apply replace_char_no_char.
Qed.

(** ** Further properties of the checksums *)

Lemma hex_digit_value_hexdigit d : 0 ≤ d < 16 → hex_digit_value (hexdigit d) = d.
Proof.
  intros Hd.
  assert (∃ k, (k < 16)%nat ∧ d = Z.of_nat k) as (k & Hk & ->)
    by (exists (Z.to_nat d); lia).
  do 16 (destruct k as [|k]; [reflexivity|]). lia.
Qed.

Lemma hex_value_go_fixed k : ∀ n acc v,
  hex_value_go (hex_fixed k n acc) v
  = hex_value_go acc (v * 16 ^ Z.of_nat k + n mod 16 ^ Z.of_nat k).
Proof.
  induction k as [|k IH]; intros n acc v.
  - cbn [hex_fixed]. change (16 ^ Z.of_nat 0) with 1. rewrite Z.mod_1_r. f_equal. lia.
  - rewrite hex_fixed_S, IH. cbn [hex_value_go].
    rewrite hex_digit_value_hexdigit by (apply Z.mod_pos_bound; lia).
    f_equal. rewrite Nat2Z.inj_succ, Z.pow_succ_r by lia.
    rewrite (Z.rem_mul_r n 16 (16 ^ Z.of_nat k)) by lia. lia.
Qed.

Lemma hex_value_hex8 n : 0 ≤ n < 2 ^ 32 → hex_value (hex8 n) = n.
Proof.
  intros Hn. unfold hex_value, hex8. rewrite hex_value_go_fixed. cbn [hex_value_go].
  change (16 ^ Z.of_nat 8) with (2 ^ 32). rewrite Z.mod_small by lia. lia.
Qed.

(** X5. For a file that is there, [get_file_checksum] returns eight
    lowercase hexadecimal digits which, read back as a number, are the
    Adler-32 sum of the content (no bit is lost to the mask or the
    padding), and [get_file_size] its length; for a file that is not
    there both raise [FileNotFoundError]. *)
Theorem file_checksum_outcome w path :
  match fs w !! path with
  | Some content =>
      ∃ s, get_file_checksum w path = Ok s ∧
           String.length s = 8%nat ∧
           all_chars is_lower_hex s = true ∧
           hex_value s = adler32 content 1 ∧
           get_file_size w path = Ok (Z.of_nat (String.length content))
  | None =>
      get_file_checksum w path = Raise FileNotFoundError ∧
      get_file_size w path = Raise FileNotFoundError
  end.
Proof.
  destruct (fs w !! path) as [content|] eqn:Hf.
  - exists (hex8 (adler32 content 1)).
    split; [by apply get_file_checksum_hex8|].
    split; [apply length_hex_fixed|].
    split; [by apply hex_fixed_lower|].
    split; [apply hex_value_hex8, adler32_range|].
    by apply get_file_size_found.
  - unfold get_file_checksum, get_file_size, read_file. by rewrite Hf.
Qed.

(** ** Further properties of the file-index resolution *)

Lemma index_files_loop_outcome w full lines acc :
  for_each (fun files line =>
      let afile := Py.strip line in
      if Py.endswith afile ".txt" || Py.endswith afile ".json" then
        let afile_uri :=
          XROOTD_URI_BASE +:+ get_dataset_location full
          +:+ "/file-indexes/" +:+ afile in
        afile_size ← get_file_size w (index_file_path afile);
        afile_checksum ← get_file_checksum w (index_file_path afile);
        Ok (files ++ [IndexFile afile_uri afile_size afile_checksum])
      else Ok files) lines acc
  = if forallb (fun a => path_exists w (index_file_path a))
         (List.filter is_index_name (Py.strip <$> lines))
    then Ok (acc ++ (artifact w full <$> List.filter is_index_name (Py.strip <$> lines)))
    else Raise FileNotFoundError.
Proof.
  revert acc. induction lines as [|line lines IH]; intros acc.
  - cbn. by rewrite app_nil_r.
  - cbn [for_each fmap list_fmap List.filter].
    fold (is_index_name (Py.strip line)).
    destruct (is_index_name (Py.strip line)) eqn:E.
    + cbn [forallb]. unfold path_exists at 1.
      destruct (fs w !! index_file_path (Py.strip line)) as [content|] eqn:Hc.
      * rewrite bool_decide_eq_true_2 by eauto.
        rewrite (get_file_size_found _ _ _ Hc), (get_file_checksum_hex8 _ _ _ Hc).
        cbn [mbind result_bind andb]. rewrite IH.
        destruct (forallb _ _); [|reflexivity].
        rewrite <- app_assoc. cbn. unfold artifact at 2, index_content.
        by rewrite Hc.
      * rewrite bool_decide_eq_false_2 by (intros [? ?]; discriminate).
        unfold get_file_size, read_file. by rewrite Hc.
    + cbn [mbind result_bind]. apply IH.
Qed.

(** X6. [get_dataset_index_files] keeps the lines of the listing that end
    in [.txt] or [.json], in listing order, and ignores the others.  If the
    file of each kept line is there it returns one artifact per kept line:
    the address built from the line, the length of the file and its
    checksum.  If the file of some kept line is missing it raises
    [FileNotFoundError] and returns nothing. *)
Theorem index_files_outcome w full :
  get_dataset_index_files w full
  = if forallb (fun a => path_exists w (index_file_path a)) (index_names w full)
    then Ok (artifact w full <$> index_names w full)
    else Raise FileNotFoundError.
Proof.
  unfold get_dataset_index_files, index_names, listing.
  by rewrite index_files_loop_outcome.
Qed.

(** ** Further properties of the selection text *)

Lemma selection_ends s : Py.endswith (s +:+ "</p>") "</p>" = true.
Proof. apply endswith_append. Qed.

Lemma selection_information_cases g dataset full :
  match create_selection_information g dataset full with
  | Ok s =>
      forallb (link_covered g dataset) (LINK_INFO g) = true ∧
      Py.endswith s "</p>" = true
  | Raise e =>
      e = KeyError ∧ forallb (link_covered g dataset) (LINK_INFO g) = false
  end.
Proof.
  unfold create_selection_information. cbv zeta.
  match goal with
  | |- context [for_each ?f (LINK_INFO g) ?o] => set (body := f); generalize o
  end.
  assert (Hbody : ∀ out link,
    match body out link with
    | Ok _ => link_covered g dataset link = true
    | Raise e => e = KeyError ∧ link_covered g dataset link = false
    end).
  { intros out link. unfold body, link_covered.
    destruct (Py.contains link.1 ("_" +:+ dataset +:+ "_")); cbn [negb orb];
      [|reflexivity].
    destruct (RECOCMSSW_CACHE g !! link.1); cbn [mbind result_bind]; [|done].
    destruct (RECOGLOBALTAG_CACHE g !! link.1); cbn [mbind result_bind]; done. }
  assert (Hloop : ∀ links out,
    match for_each body links out with
    | Ok _ => forallb (link_covered g dataset) links = true
    | Raise e => e = KeyError ∧ forallb (link_covered g dataset) links = false
    end).
  { induction links as [|link links IH]; intros out; [reflexivity|].
    cbn [for_each forallb]. specialize (Hbody out link).
    destruct (body out link) as [out'|e]; cbn [mbind result_bind].
    - rewrite Hbody. cbn [andb]. apply IH.
    - destruct Hbody as [-> ->]. done. }
  clear Hbody.
  intros out. specialize (Hloop (LINK_INFO g) out).
  destruct (for_each body (LINK_INFO g) out) as [s|e]; cbn [mbind result_bind].
  - split; [exact Hloop|]. apply endswith_append.
  - exact Hloop.
Qed.

(** X7. [create_selection_information] returns exactly when, for every
    key of [LINK_INFO] that holds the dataset name between underscores,
    both reco caches have an entry; the text it returns ends with the
    closing paragraph tag.  Otherwise it raises [KeyError], and nothing
    else. *)
Theorem selection_information_outcome g dataset full :
  if forallb (link_covered g dataset) (LINK_INFO g)
  then ∃ s, create_selection_information g dataset full = Ok s ∧
            Py.endswith s "</p>" = true
  else create_selection_information g dataset full = Raise KeyError.
Proof.
  pose proof (selection_information_cases g dataset full) as H.
  destruct (create_selection_information g dataset full) as [s|e].
  - destruct H as [-> H]. by exists s.
  - destruct H as [-> ->]. reflexivity.
Qed.

(** ** Further properties of the record builder *)

Lemma index_names_present w full :
  forallb (fun a => path_exists w (index_file_path a)) (index_names w full) = true →
  Forall (fun a => is_Some (fs w !! index_file_path a))
    (json_names w full ++ txt_names w full).
Proof.
  intros H. rewrite forallb_forall in H. apply Forall_forall. intros a Ha.
  assert (Hin : In a (index_names w full)).
  { unfold index_names, json_names, txt_names, is_index_name in *.
    apply elem_of_app in Ha. rewrite !list_elem_of_In, !filter_In in Ha.
    apply filter_In. destruct Ha as [[? Hj]|[? Ht]]; (split; [done|]);
      rewrite ?Hj, ?Ht, ?orb_true_r; reflexivity. }
  apply H in Hin. unfold path_exists in Hin. by apply bool_decide_eq_true in Hin.
Qed.

(** How a call of [create_record] can end *)
Lemma create_record_inv g w recid full out :
  ∃ r, create_record g w recid full out = (out, r) ∧
    match r with
    | Ok rec =>
        (∃ kvs, rec = JDict kvs) ∧
        ∃ short runperiod version format,
          Re.dataset_match full = Some (short, runperiod, version, format) ∧
          sources_ok g w full short
    | Raise e => record_error e ∧ ¬ buildable g w full
    end.
Proof.
  unfold create_record, record_error, buildable.
  destruct (Re.dataset_match full) as [[[[short rp] ver] fmt]|] eqn:Hm.
  2:{ eexists. split; [reflexivity|]. split; [by left|].
      intros (? & ? & ? & ? & ? & _). discriminate. }
  unfold lift.
  unfold get_number_events, get_number_files, get_size.
  destruct (get_das_store_json w full) as [doc|e] eqn:Hdas.
  2:{ eexists. split; [reflexivity|]. split.
      - unfold get_das_store_json, read_file in Hdas.
        destruct (fs w !! das_store_path full); cbn in Hdas;
          [destruct (json_loads s); [discriminate|]|];
          injection Hdas as <-; auto.
      - intros (? & ? & ? & ? & [= <- <- <- <-] & [? ?] & _). congruence. }
  cbn [mbind result_bind]. cbv zeta.
  assert (Hget : ∀ v : json, ∃ x, (if truthy v then Ok v else Ok (JInt 0)) = Ok x).
  { intros v. destruct (truthy v); eauto. }
  destruct (Hget (get_from_deep_json doc "nevents")) as [ne ->].
  destruct (Hget (get_from_deep_json doc "nfiles")) as [nf ->].
  destruct (Hget (get_from_deep_json doc "size")) as [sz ->].
  cbn [mbind result_bind].
  destruct (get_doi g full) as [doi|e] eqn:Hdoi.
  2:{ eexists. split; [reflexivity|]. split.
      - unfold get_doi in Hdoi. destruct (DOI_INFO g !! full); [discriminate|].
        injection Hdoi as <-. auto.
      - intros (? & ? & ? & ? & [= <- <- <- <-] & _ & [? ?] & _). congruence. }
  cbn [mbind result_bind].
  unfold get_dataset_index_files. rewrite index_files_loop_outcome.
  destruct (forallb _ _) eqn:Hall.
  2:{ eexists. split; [reflexivity|]. split; [auto|].
      intros (? & ? & ? & ? & [= <- <- <- <-] & _ & _ & _ & Hfiles).
      pose proof (get_dataset_index_files_ok _ _ Hfiles) as Hok.
      unfold get_dataset_index_files in Hok.
      rewrite index_files_loop_outcome, Hall in Hok. discriminate Hok. }
  cbn [mbind result_bind].
  pose proof (selection_information_cases g short full) as Hsel.
  destruct (create_selection_information g short full) as [meth|e] eqn:Hmeth.
  2:{ eexists. split; [reflexivity|]. destruct Hsel as [-> _]. split; [auto|].
      intros (? & ? & ? & ? & [= <- <- <- <-] & _ & _ & [? ?] & _).
      congruence. }
  cbn [mbind result_bind]. eexists. split; [reflexivity|].
  split; [eauto|]. exists short, rp, ver, fmt. split; [reflexivity|].
  split; [by exists doc|]. split; [by exists doi|]. split; [by exists meth|].
  by apply index_names_present.
Qed.


(** X9. [create_record] returns a record exactly when the identifier
    matches the pattern, the DAS document of the dataset is there and
    parses, the DOI table has the dataset, the file of every index name of
    the listing is there, and the selection text can be built; the record
    id plays no part in it. *)
Theorem create_record_returns_iff g w recid full out :
  (∃ rec, create_record g w recid full out = (out, Ok rec)) ↔ buildable g w full.
Proof.
  destruct (create_record_inv g w recid full out) as (r & Hr & Hcase). split.
  - intros [rec Hrec]. rewrite Hr in Hrec. injection Hrec as ->.
    destruct Hcase as [_ (short & rp & ver & fmt & Hm & Hs)].
    by exists short, rp, ver, fmt.
  - intros Hb. rewrite Hr. destruct r as [rec|e]; [eauto|].
    destruct Hcase as [_ Hn]. contradiction.
Qed.

(** X10. In a record that [create_record] returns the top-level keys are
    in strictly increasing order, hence distinct; [doi] is the entry of
    the DOI table; [run_numbers] is there exactly when the dataset is in
    the run-number cache, with the cached list; and [container_images] is
    the last entry of [system_details] exactly when the release is in the
    container-image cache. *)
Theorem record_shape g w recid full short runperiod version format out :
  Re.dataset_match full = Some (short, runperiod, version, format) →
  sources_ok g w full short →
  ∃ rec,
    create_record g w recid full out = (out, Ok (JDict rec)) ∧
    strictly_sorted rec.*1 = true ∧
    dict_get rec "doi" = JStr <$> DOI_INFO g !! full ∧
    dict_get rec "run_numbers"
      = (fun l => JList (JStr <$> l)) <$> RUNNUMBER_CACHE g !! full ∧
    dict_get rec "run_period" = Some (JList [JStr runperiod]) ∧
    dict_get rec "system_details"
      = Some (JDict ([("global_tag", JStr global_tag);
                      ("release", JStr cmssw_release)]
                     ++ match CONTAINERIMAGES_CACHE g !! cmssw_release with
                        | Some images => [("container_images", images)]
                        | None => []
                        end)).
Proof.
  intros Hm (Hdas & [doi Hdoi] & [meth Hmeth] & Hfiles).
  destruct (getters_ok _ _ Hdas) as ([ne Hne] & [nf Hnf] & [sz Hsz]).
  unfold create_record. rewrite Hm, Hne, Hnf, Hsz, Hdoi.
  rewrite (get_dataset_index_files_ok _ _ Hfiles), Hmeth.
  unfold lift. cbn [mbind result_bind]. cbv zeta.
  unfold get_doi in Hdoi.
  destruct (DOI_INFO g !! full) as [d|]; [|discriminate]. injection Hdoi as ->.
  eexists. split; [reflexivity|].
  destruct (RUNNUMBER_CACHE g !! full); repeat split; reflexivity.
Qed.

(** ** Further properties of the driver *)

Lemma create_records_from_inv g w ids : ∀ recid records out,
  ∃ r, create_records_from g w recid ids records out = (out, r) ∧
    match r with
    | Ok recs =>
        Forall (buildable g w) ids ∧
        length recs = (length records + length ids)%nat
    | Raise e => record_error e ∧ ¬ Forall (buildable g w) ids
    end.
Proof.
  induction ids as [|id ids IH]; intros recid records out.
  - eexists. split; [reflexivity|]. split; [constructor|cbn; lia].
  - cbn [create_records_from]. unfold mbind at 1, prog_bind at 1.
    destruct (create_record_inv g w recid id out) as (r & -> & Hcase).
    destruct r as [rec|e].
    + destruct Hcase as [_ (short & rp & ver & fmt & Hm & Hs)].
      destruct (IH (recid + 1) (records ++ [rec]) out) as (r' & -> & Hcase').
      eexists. split; [reflexivity|]. destruct r' as [recs|e].
      * destruct Hcase' as [Hb Hlen]. split.
        -- constructor; [by exists short, rp, ver, fmt|exact Hb].
        -- rewrite Hlen, length_app. cbn. lia.
      * destruct Hcase' as [He Hn]. split; [exact He|].
        intros Hb. apply Forall_cons in Hb as [_ Hb]. contradiction.
    + eexists. split; [reflexivity|]. destruct Hcase as [He Hn].
      split; [exact He|]. intros Hb. apply Forall_cons in Hb as [Hb _].
      contradiction.
Qed.


(** ** Further properties of the loaders *)

Lemma unpack2_fields2 (row : list string) :
  unpack2 row = match fields2 row with Some p => Ok p | None => Raise ValueError end.
Proof. by destruct row as [|a [|b [|c row]]]. Qed.

Lemma foldl_insert_lookup (ps : list (string * string)) : ∀ (tbl : gmap string string) k,
  foldl (fun t p => <[p.1 := p.2]> t) tbl ps !! k
  = match last_value ps k with Some v => Some v | None => tbl !! k end.
Proof.
  unfold last_value.
  induction ps as [|[a b] ps IH] using rev_ind; intros tbl k; [reflexivity|].
  rewrite foldl_app, reverse_app. cbn [foldl reverse rev_append app dict_get fst snd].
  destruct (String.eqb_spec a k) as [->|Hne].
  - by rewrite lookup_insert_eq.
  - rewrite lookup_insert_ne by done. apply IH.
Qed.

Lemma parse_rows_none rows row :
  row ∈ rows → fields2 row = None → parse_rows rows = None.
Proof.
  induction 1 as [row rows|row row' rows _ IH]; intros Hr; cbn [parse_rows].
  - by rewrite Hr.
  - rewrite (IH Hr). by destruct (fields2 row').
Qed.

Lemma doi_loop lines : ∀ tbl : gmap string string,
  for_each (fun (tbl : gmap string string) line =>
      '(dataset, doi) ← unpack2 (Py.split_ws line);
      Ok (<[dataset := doi]> tbl)) lines tbl
  = match parse_rows (Py.split_ws <$> lines) with
    | Some ps => Ok (foldl (fun t p => <[p.1 := p.2]> t) tbl ps)
    | None => Raise ValueError
    end.
Proof.
  induction lines as [|line lines IH]; intros tbl; [reflexivity|].
  cbn [for_each fmap list_fmap parse_rows]. rewrite unpack2_fields2.
  destruct (fields2 (Py.split_ws line)) as [[a b]|]; cbn [mbind result_bind];
    [|reflexivity].
  rewrite IH. fold (Py.split_ws <$> lines).
  by destruct (parse_rows (Py.split_ws <$> lines)).
Qed.


Lemma reco_loop lines : ∀ tbl : gmap string string,
  for_each (fun (tbl : gmap string string) line =>
      let line := Py.strip line in
      '(reco, value) ← unpack2 (Py.split " " line);
      let reco := Py.replace reco ".py" "" in
      Ok (<[reco := value]> tbl)) lines tbl
  = match parse_rows ((fun l => Py.split " " (Py.strip l)) <$> lines) with
    | Some ps =>
        Ok (foldl (fun t p => <[p.1 := p.2]> t) tbl
              ((fun p => (Py.replace p.1 ".py" "", p.2)) <$> ps))
    | None => Raise ValueError
    end.
Proof.
  induction lines as [|line lines IH]; intros tbl; [reflexivity|].
  cbn [for_each fmap list_fmap parse_rows]. cbv zeta. rewrite unpack2_fields2.
  destruct (fields2 (Py.split " " (Py.strip line))) as [[a b]|];
    cbn [mbind result_bind]; [|reflexivity].
  rewrite IH. fold ((fun l => Py.split " " (Py.strip l)) <$> lines).
  by destruct (parse_rows _).
Qed.


Lemma fwyzard_loop lines : ∀ tbl : gmap string (list string),
  for_each (fun (tbl : gmap string (list string)) line =>
      let line := Py.strip line in
      '(dataset, trigger) ← unpack2 (Py.split "," line);
      match tbl !! dataset with
      | Some triggers => Ok (<[dataset := triggers ++ [trigger]]> tbl)
      | None => Ok (<[dataset := [trigger]]> tbl)
      end) lines tbl
  = match parse_rows ((fun l => Py.split "," (Py.strip l)) <$> lines) with
    | Some ps => Ok (foldl add_trigger tbl ps)
    | None => Raise ValueError
    end.
Proof.
  induction lines as [|line lines IH]; intros tbl; [reflexivity|].
  cbn [for_each fmap list_fmap parse_rows]. cbv zeta. rewrite unpack2_fields2.
  destruct (fields2 (Py.split "," (Py.strip line))) as [[a b]|];
    cbn [mbind result_bind]; [|reflexivity].
  fold ((fun l => Py.split "," (Py.strip l)) <$> lines).
  assert (Hstep : (match tbl !! a with
                   | Some triggers => Ok (<[a := triggers ++ [b]]> tbl)
                   | None => Ok (<[a := [b]]> tbl)
                   end) = Ok (add_trigger tbl (a, b))).
  { unfold add_trigger. cbn [fst snd]. by destruct (tbl !! a). }
  rewrite Hstep. cbn [mbind result_bind]. rewrite IH.
  by destruct (parse_rows _).
Qed.

Lemma add_trigger_lookup (ps : list (string * string)) :
  ∀ (tbl : gmap string (list string)) d,
  (∀ k, tbl !! k ≠ Some []) →
  default [] (foldl add_trigger tbl ps !! d)
    = default [] (tbl !! d) ++ triggers_of ps d ∧
  (∀ k, foldl add_trigger tbl ps !! k ≠ Some []).
Proof.
  unfold triggers_of.
  induction ps as [|[a b] ps IH]; intros tbl d Hne.
  - cbn. by rewrite app_nil_r.
  - cbn [foldl List.filter fst].
    assert (Hne' : ∀ k, add_trigger tbl (a, b) !! k ≠ Some []).
    { intros k. unfold add_trigger. cbn [fst snd].
      destruct (tbl !! a) as [ts|] eqn:Ea;
        (destruct (decide (a = k)) as [<-|Hk];
         [rewrite lookup_insert_eq|rewrite lookup_insert_ne by done; apply Hne]).
      - intros [= H]. by destruct ts.
      - discriminate. }
    destruct (IH (add_trigger tbl (a, b)) d Hne') as [IH1 IH2].
    split; [|exact IH2]. rewrite IH1. unfold add_trigger. cbn [fst snd].
    destruct (String.eqb_spec a d) as [->|Hd].
    + cbn [fmap list_fmap snd]. destruct (tbl !! d) as [ts|] eqn:Ed;
        rewrite lookup_insert_eq; cbn [default id]; by rewrite <- ?app_assoc.
    + destruct (tbl !! a); by rewrite lookup_insert_ne.
Qed.


Lemma dict_get_in_keys {V} (content : list (string * V)) k :
  k ∈ content.*1 → is_Some (dict_get content k).
Proof.
  induction content as [|[k' v] content IH]; cbn [fmap list_fmap fst dict_get].
  - intros H. by apply elem_of_nil in H.
  - destruct (String.eqb_spec k' k) as [->|Hne]; [eauto|].
    intros [H|H]%elem_of_cons; [congruence|auto].
Qed.

Lemma dict_get_not_in_keys {V} (content : list (string * V)) k :
  k ∉ content.*1 → dict_get content k = None.
Proof.
  induction content as [|[k' v] content IH]; cbn [fmap list_fmap fst dict_get];
    [done|].
  intros Hn. apply not_elem_of_cons in Hn as [Hk Hn].
  destruct (String.eqb_spec k' k) as [->|Hne]; [done|auto].
Qed.

Lemma containerimages_fold (content l : list (string * json)) :
  ∀ (tbl : gmap string json) k,
  Forall (fun kv => kv.1 ∈ content.*1) l →
  foldl (fun (tbl : gmap string json) kv =>
           match dict_get content kv.1 with
           | Some v => <[kv.1 := v]> tbl
           | None => tbl
           end) tbl l !! k
  = if bool_decide (k ∈ l.*1) then dict_get content k else tbl !! k.
Proof.
  induction l as [|[k' v'] l IH]; intros tbl k Hl; [reflexivity|].
  apply Forall_cons in Hl as [Hk' Hl]. cbn [foldl fst]. rewrite IH by done.
  destruct (dict_get_in_keys content k' Hk') as [v Hv]. rewrite Hv.
  cbn [fmap list_fmap fst].
  destruct (decide (k' = k)) as [->|Hne].
  - rewrite lookup_insert_eq, (bool_decide_eq_true_2 (k ∈ k :: l.*1))
      by apply list_elem_of_here.
    rewrite Hv. by destruct (bool_decide _).
  - rewrite lookup_insert_ne by done.
    destruct (decide (k ∈ l.*1)) as [Hin|Hin].
    + rewrite !bool_decide_eq_true_2; [done| |done]. by apply list_elem_of_further.
    + rewrite !bool_decide_eq_false_2; [done| |done].
      intros [?|?]%elem_of_cons; congruence.
Qed.

(** X15. [populate_containerimages_cache] raises [FileNotFoundError]
    without its file, [JSONDecodeError] when the file does not parse and
    [AttributeError] when the document is not a mapping.  Otherwise the
    cache agrees with the document on every key. *)
Theorem populate_containerimages_outcome w :
  match fs w !! "../cms-release-info/cms_release_container_images_info.json" with
  | None => populate_containerimages_cache w = Raise FileNotFoundError
  | Some text =>
      match json_loads text with
      | None => populate_containerimages_cache w = Raise JSONDecodeError
      | Some (JDict content) =>
          ∃ tbl, populate_containerimages_cache w = Ok tbl ∧
                 ∀ k, tbl !! k = dict_get content k
      | Some _ => populate_containerimages_cache w = Raise AttributeError
      end
  end.
Proof.
  unfold populate_containerimages_cache, read_file.
  destruct (fs w !! _) as [text|]; [|reflexivity]. cbn [mbind result_bind].
  destruct (json_loads text) as [[| | | | | |content]|]; try reflexivity.
  eexists. split; [reflexivity|]. intros k.
  rewrite containerimages_fold.
  - destruct (decide (k ∈ content.*1)) as [Hin|Hin].
    + by rewrite bool_decide_eq_true_2.
    + rewrite bool_decide_eq_false_2, lookup_empty by done.
      by rewrite dict_get_not_in_keys.
  - apply Forall_forall. intros kv Hkv. by apply list_elem_of_fmap_2.
Qed.

Lemma rows_loop rows : ∀ tbl : gmap string string,
  for_each (fun (tbl : gmap string string) line_values =>
      '(dataset, description) ← unpack2 line_values;
      Ok (<[dataset := description]> tbl)) rows tbl
  = match parse_rows rows with
    | Some ps => Ok (foldl (fun t p => <[p.1 := p.2]> t) tbl ps)
    | None => Raise ValueError
    end.
Proof.
  induction rows as [|row rows IH]; intros tbl; [reflexivity|].
  cbn [for_each parse_rows]. rewrite unpack2_fields2.
  destruct (fields2 row) as [[a b]|]; cbn [mbind result_bind]; [|reflexivity].
  rewrite IH. by destruct (parse_rows rows).
Qed.

(** X16. Without its file [populate_selection_descriptions] returns the
    empty table; a row of the file that does not have exactly two fields
    makes it raise [ValueError].  Otherwise the table maps each dataset to
    the description of the last row that names it. *)
Theorem populate_selection_descriptions_outcome w :
  match fs w !! "./inputs/CMSDatasetDescription_Run2015E.csv" with
  | None => populate_selection_descriptions w = Ok ∅
  | Some text =>
      match parse_rows (csv_reader ":" text) with
      | None => populate_selection_descriptions w = Raise ValueError
      | Some ps =>
          ∃ tbl, populate_selection_descriptions w = Ok tbl ∧
                 ∀ d, tbl !! d = last_value ps d
      end
  end.
Proof.
  unfold populate_selection_descriptions, path_exists, read_file.
  cbn [for_each].
  destruct (fs w !! "./inputs/CMSDatasetDescription_Run2015E.csv") as [text|].
  2:{ by rewrite bool_decide_eq_false_2 by (intros [? ?]; discriminate). }
  rewrite bool_decide_eq_true_2 by eauto. cbn [mbind result_bind].
  rewrite rows_loop. destruct (parse_rows _) as [ps|]; [|reflexivity].
  cbn [mbind result_bind]. eexists. split; [reflexivity|]. intros d.
  rewrite foldl_insert_lookup, lookup_empty. by destruct (last_value ps d).
Qed.

Lemma lstrip_blank l : blank l = true → Py.lstrip l = "".
Proof.
  unfold blank. induction l as [|c l IH]; [reflexivity|].
  cbn [all_chars Py.lstrip]. intros [Hc Hl]%andb_prop. rewrite Hc. auto.
Qed.

Lemma split_ws_blank l : blank l = true → Py.split_ws l = [].
Proof.
  unfold blank, Py.split_ws. induction l as [|c l IH]; [reflexivity|].
  cbn [all_chars Py.split_ws_go]. intros [Hc Hl]%andb_prop. rewrite Hc.
  cbn. auto.
Qed.

(** X17. A line of white space only (an empty line, say) in the DOI file,
    in a reco cache file or in the trigger file makes the loader of that
    file raise [ValueError]. *)
Theorem blank_line_raises w text l :
  l ∈ Py.readlines text →
  blank l = true →
  (fs w !! "./inputs/doi-col.txt" = Some text →
   populate_doiinfo w = Raise ValueError) ∧
  (∀ path, fs w !! path = Some text →
           populate_reco_cache w path = Raise ValueError) ∧
  (fs w !! "./inputs/hlt-2015-hi-ppref-datasets.txt" = Some text →
   populate_fwyzard w = Raise ValueError).
Proof.
  intros Hin Hb.
  assert (Hstrip : Py.strip l = "").
  { unfold Py.strip. by rewrite lstrip_blank. }
  split; [|split].
  - intros Hf. unfold populate_doiinfo, read_file. rewrite Hf.
    cbn [mbind result_bind]. rewrite doi_loop.
    rewrite (parse_rows_none _ (Py.split_ws l)); [reflexivity| |].
    + by apply list_elem_of_fmap_2.
    + by rewrite split_ws_blank.
  - intros path Hf. unfold populate_reco_cache, read_file. rewrite Hf.
    cbn [mbind result_bind]. rewrite reco_loop.
    rewrite (parse_rows_none _ (Py.split " " (Py.strip l))); [reflexivity| |].
    + by apply (list_elem_of_fmap_2 (fun l => Py.split " " (Py.strip l))).
    + by rewrite Hstrip.
  - intros Hf. unfold populate_fwyzard, path_exists, read_file. rewrite Hf.
    rewrite bool_decide_eq_true_2 by eauto. cbn [mbind result_bind].
    rewrite fwyzard_loop.
    rewrite (parse_rows_none _ (Py.split "," (Py.strip l))); [reflexivity| |].
    + by apply (list_elem_of_fmap_2 (fun l => Py.split "," (Py.strip l))).
    + by rewrite Hstrip.
Qed.

(** ** Further properties of the run-number cache *)

Lemma insert_sorted_sorted x l :
  is_sorted l = true → is_sorted (insert_sorted x l) = true.
Proof.
  induction l as [|y l IH]; [reflexivity|]. intros Hs. cbn [insert_sorted].
  destruct (String.leb x y) eqn:E.
  - cbn [is_sorted]. cbn [is_sorted] in Hs. by rewrite E.
  - assert (Hyx : String.leb y x = true).
    { destruct (String.leb_total x y) as [H|H]; congruence. }
    destruct l as [|z l].
    + cbn. by rewrite Hyx.
    + cbn [is_sorted] in Hs. apply andb_prop in Hs as [Hyz Hs].
      specialize (IH Hs). cbn [insert_sorted] in IH |- *.
      destruct (String.leb x z); cbn [is_sorted] in IH |- *;
        rewrite ?Hyx, ?Hyz; exact IH.
Qed.

Lemma sort_strings_sorted l : is_sorted (sort_strings l) = true.
Proof.
  unfold sort_strings. induction l as [|x l IH]; [reflexivity|].
  cbn [foldr]. by apply insert_sorted_sorted.
Qed.

Lemma insert_sorted_perm x l : insert_sorted x l ≡ₚ x :: l.
Proof.
  induction l as [|y l IH]; [reflexivity|]. cbn [insert_sorted].
  destruct (String.leb x y); [reflexivity|]. rewrite IH. apply Permutation_swap.
Qed.

Lemma sort_strings_perm l : sort_strings l ≡ₚ l.
Proof.
  unfold sort_strings. induction l as [|x l IH]; [reflexivity|].
  cbn [foldr]. by rewrite insert_sorted_perm, IH.
Qed.

Lemma runnumber_step_invariant st line :
  map_Forall (fun _ vs => vs ≠ [] ∧ is_sorted vs = true) (rn_cache st) →
  Forall (fun l => is_repeat_message l = true) (rn_printed st) →
  map_Forall (fun _ vs => vs ≠ [] ∧ is_sorted vs = true)
    (rn_cache (runnumber_step st line)) ∧
  Forall (fun l => is_repeat_message l = true) (rn_printed (runnumber_step st line)).
Proof.
  intros Hc Hp. unfold runnumber_step.
  destruct (Py.startswith (Py.strip line) "/"); [|done]. cbn [rn_cache rn_printed].
  destruct (rn_cache st !! rn_dataset st) eqn:E; cbn [rn_cache rn_printed].
  - split; [exact Hc|]. apply Forall_app. split; [exact Hp|].
    constructor; [|constructor]. unfold is_repeat_message, Py.startswith.
    rewrite prefix_append. cbn [andb].
    rewrite <- append_assoc. apply endswith_append.
  - destruct (rn_values st) as [|v vs] eqn:Ev; cbn [rn_cache rn_printed];
      [done|]. split; [|exact Hp].
    apply map_Forall_insert_2; [|exact Hc]. split.
    + intros Hnil. pose proof (sort_strings_perm (v :: vs)) as Hperm.
      rewrite Hnil in Hperm. by apply Permutation_nil_cons in Hperm.
    + apply sort_strings_sorted.
Qed.

Lemma runnumber_lines_invariant lines :
  map_Forall (fun _ vs => vs ≠ [] ∧ is_sorted vs = true)
    (rn_cache (runnumber_lines lines)) ∧
  Forall (fun l => is_repeat_message l = true) (rn_printed (runnumber_lines lines)).
Proof.
  induction lines as [|line lines IH] using rev_ind.
  - split; [apply map_Forall_empty|constructor].
  - rewrite runnumber_lines_app. cbn [foldl].
    destruct IH as [Hc Hp]. by apply runnumber_step_invariant.
Qed.

(** X18. [populate_runnumber_cache] raises only when the run-number file
    is missing ([FileNotFoundError]).  Every list of run numbers it enters
    in the cache is non-empty and in ascending order, and every line it
    prints is the message about a dataset occurring several times. *)
Theorem populate_runnumber_cache_outcome w :
  match populate_runnumber_cache w with
  | Ok (cache, printed) =>
      is_Some (fs w !! "../cms-YYYY-run-numbers/inputs/allruns.txt") ∧
      map_Forall (fun _ vs => vs ≠ [] ∧ is_sorted vs = true) cache ∧
      Forall (fun l => is_repeat_message l = true) printed
  | Raise e =>
      e = FileNotFoundError ∧
      fs w !! "../cms-YYYY-run-numbers/inputs/allruns.txt" = None
  end.
Proof.
  unfold populate_runnumber_cache, read_file.
  destruct (fs w !! _) as [text|]; cbn [mbind result_bind]; [|done].
  split; [eauto|]. apply runnumber_lines_invariant.
Qed.

Lemma runnumber_step_keeps st line k vs :
  rn_cache st !! k = Some vs → rn_cache (runnumber_step st line) !! k = Some vs.
Proof.
  intros Hk. unfold runnumber_step.
  destruct (Py.startswith (Py.strip line) "/"); [|done]. cbn [rn_cache].
  destruct (rn_cache st !! rn_dataset st) eqn:E; cbn [rn_cache]; [done|].
  destruct (rn_values st); cbn [rn_cache]; [done|].
  rewrite lookup_insert_ne; [done|]. intros Heq. congruence.
Qed.

Lemma runnumber_fold_keeps lines : ∀ st k vs,
  rn_cache st !! k = Some vs →
  rn_cache (foldl runnumber_step st lines) !! k = Some vs.
Proof.
  induction lines as [|line lines IH]; intros st k vs Hk; [exact Hk|].
  cbn [foldl]. by apply IH, runnumber_step_keeps.
Qed.

(** X19. The cache never changes an entry: the run numbers a dataset has
    in the cache after some lines of the file are the ones it has after
    the whole file, whatever follows (a later block of the same dataset is
    not merged in and does not replace the first). *)
Theorem runnumber_first_block_wins a b k vs :
  rn_cache (runnumber_lines a) !! k = Some vs →
  rn_cache (runnumber_lines (a ++ b)) !! k = Some vs.
Proof.
  intros Hk. rewrite runnumber_lines_app. by apply runnumber_fold_keeps.
Qed.

Lemma runnumber_values_accumulate vals : ∀ st,
  Forall (fun v => Py.startswith (Py.strip v) "/" = false) vals →
  foldl runnumber_step st vals
  = RunnumberState (rn_cache st) (rn_dataset st)
      (rn_values st ++ (Py.strip <$> vals)) (rn_printed st).
Proof.
  induction vals as [|v vals IH]; intros st Hv.
  - cbn. rewrite app_nil_r. by destruct st.
  - apply Forall_cons in Hv as [Hv Hvs]. cbn [foldl]. rewrite IH by done.
    unfold runnumber_step. rewrite Hv. cbn [rn_cache rn_dataset rn_values rn_printed].
    by rewrite <- app_assoc.
Qed.

Lemma runnumber_header_fresh pre hdr :
  Py.startswith (Py.strip hdr) "/" = true →
  Py.strip hdr ∉ Py.strip <$> pre →
  let st := runnumber_lines (pre ++ [hdr]) in
  rn_cache st !! Py.strip hdr = None ∧
  rn_dataset st = Py.strip hdr ∧ rn_values st = [].
Proof.
  intros Hh Hfresh. cbv zeta. rewrite runnumber_lines_app. cbn [foldl].
  destruct (runnumber_keys_seen pre) as [Hkeys Hds].
  set (st := runnumber_lines pre) in *.
  assert (Hnew : ∀ k, k = "" ∨ k ∈ Py.strip <$> pre → k ≠ Py.strip hdr).
  { intros k [->|Hk] Heq.
    - rewrite <- Heq in Hh. discriminate Hh.
    - by subst k. }
  assert (Hnone : rn_cache st !! Py.strip hdr = None).
  { destruct (rn_cache st !! Py.strip hdr) eqn:E; [|reflexivity].
    exfalso. by apply (Hnew (Py.strip hdr)); [apply Hkeys|]. }
  unfold runnumber_step. rewrite Hh.
  cbn [rn_cache rn_dataset rn_values]. split; [|done].
  destruct (rn_cache st !! rn_dataset st) eqn:E; cbn [rn_cache]; [exact Hnone|].
  destruct (rn_values st); cbn [rn_cache]; [exact Hnone|].
  rewrite lookup_insert_ne; [exact Hnone|]. by apply Hnew.
Qed.


(** ** Further properties of a run *)

Lemma populate_prints w :
  ∃ printed r, populate w [] = (printed, r) ∧
               Forall (fun l => is_repeat_message l = true) printed.
Proof.
  unfold populate, mbind, prog_bind, lift, print_lines, mret, prog_ret.
  destruct (populate_fwyzard w); [|by eexists _, _].
  destruct (populate_doiinfo w); [|by eexists _, _].
  unfold populate_runnumber_cache, read_file.
  destruct (fs w !! "../cms-YYYY-run-numbers/inputs/allruns.txt") as [text|];
    cbn [mbind result_bind]; [|by eexists _, _].
  destruct (runnumber_lines_invariant (Py.readlines text)) as [_ Hp].
  cbn [app].
  destruct (populate_containerimages_cache w); [|by eexists _, _].
  destruct (populate_recocmssw_cache w); [|by eexists _, _].
  destruct (populate_recoglobaltag_cache w); [|by eexists _, _].
  destruct (populate_selection_descriptions w); by eexists _, _.
Qed.


(** ** Further properties of the year and the run descriptor *)

Lemma intersperse_nil s : Py.intersperse "" s = s.
Proof. induction s as [|c s IH]; [reflexivity|]. cbn. by rewrite IH. Qed.

(** X22. For a run-period token of at most three characters the slice of
    the year is empty, and the run descriptor is the token unchanged. *)
Theorem runperiod_short_token runperiod :
  (String.length runperiod ≤ 3)%nat →
  dataset_runperiod_year runperiod = "" ∧
  dataset_runperiod_runx runperiod = runperiod.
Proof.
  intros Hlen.
  assert (Hy : dataset_runperiod_year runperiod = "").
  { destruct runperiod as [|c1 [|c2 [|c3 [|c4 s]]]]; try reflexivity.
    cbn in Hlen. lia. }
  split; [exact Hy|]. unfold dataset_runperiod_runx. rewrite Hy.
  apply intersperse_nil.
Qed.

(** ** Further properties of the identifier pattern *)

Lemma has_char_append c p r :
  has_char c (p +:+ r) = has_char c p || has_char c r.
Proof.
  induction p as [|x p IH]; [reflexivity|]. cbn. by rewrite IH, orb_assoc.
Qed.

Lemma lit_no_char {A} c (k : string → option A) s :
  (∀ s', s ≠ String c s') → Re.lit c k s = None.
Proof.
  intros Hs. destruct s as [|x s]; [reflexivity|]. cbn.
  destruct (Ascii.eqb_spec x c) as [->|]; [|reflexivity]. by destruct (Hs s).
Qed.

Lemma star_greedy_longest_fail {A} (k : string → string → option A) s :
  (∀ p r, s = p +:+ r → p ≠ "" → k p r = None) →
  Re.star_greedy k s = k "" s.
Proof.
  revert k. induction s as [|c s IH]; intros k Hk; [reflexivity|].
  cbn [Re.star_greedy]. destruct (Ascii.eqb c Py.nl); [reflexivity|].
  rewrite IH.
  - by rewrite (Hk (String c "") s).
  - intros p r -> Hp. by apply (Hk (String c p) r).
Qed.

Lemma star_greedy_at {A} (k : string → string → option A) a r x :
  has_char Py.nl a = false →
  k a r = Some x →
  (∀ t r', r = t +:+ r' → t ≠ "" → k (a +:+ t) r' = None) →
  Re.star_greedy k (a +:+ r) = Some x.
Proof.
  revert k. induction a as [|c a IH]; intros k Hnl Hk Hlong.
  - cbn. rewrite star_greedy_longest_fail; [exact Hk|exact Hlong].
  - cbn [has_char] in Hnl. apply orb_false_elim in Hnl as [Hc Ha].
    cbn [String.append Re.star_greedy]. rewrite Hc.
    by rewrite (IH (fun p r => k (String c p) r)).
Qed.

Lemma star_lazy_unfold {A} (k : string → string → option A) s :
  Re.star_lazy k s
  = match k "" s with
    | Some x => Some x
    | None =>
        match s with
        | "" => None
        | String c s' =>
            if Ascii.eqb c Py.nl then None
            else Re.star_lazy (fun p r => k (String c p) r) s'
        end
    end.
Proof. by destruct s. Qed.

Lemma star_lazy_at {A} (k : string → string → option A) a r x :
  has_char Py.nl a = false →
  k a r = Some x →
  (∀ p t, a = p +:+ t → t ≠ "" → k p (t +:+ r) = None) →
  Re.star_lazy k (a +:+ r) = Some x.
Proof.
  revert k. induction a as [|c a IH]; intros k Hnl Hk Hshort.
  - cbn [String.append]. rewrite star_lazy_unfold. by rewrite Hk.
  - cbn [has_char] in Hnl. apply orb_false_elim in Hnl as [Hc Ha].
    cbn [String.append]. rewrite star_lazy_unfold.
    pose proof (Hshort "" (String c a) eq_refl ltac:(done)) as H0.
    cbn [String.append] in H0. rewrite H0, Hc.
    apply (IH (fun p r => k (String c p) r)); [done..|].
    intros p t -> Ht. by apply (Hshort (String c p) t).
Qed.

Lemma star_lazy_fail {A} (k : string → string → option A) s :
  (∀ p r, s = p +:+ r → k p r = None) → Re.star_lazy k s = None.
Proof.
  revert k. induction s as [|c s IH]; intros k Hk; rewrite star_lazy_unfold.
  - by rewrite (Hk "" "").
  - rewrite (Hk "" (String c s)) by done.
    destruct (Ascii.eqb c Py.nl); [reflexivity|].
    apply IH. intros p r ->. by apply (Hk (String c p) r).
Qed.

Lemma no_char_head c s s' : has_char c s = false → s ≠ String c s'.
Proof. intros H ->. cbn in H. by rewrite Ascii.eqb_refl in H. Qed.

Lemma first_slash_unique u x t y :
  has_char "/" u = false → has_char "/" x = false →
  u +:+ String "/" x = t +:+ String "/" y → y = x.
Proof.
  revert t. induction u as [|c u IH]; intros t Hu Hx.
  - destruct t as [|c' t]; cbn [String.append]; [by intros [= ->]|].
    intros [= <- ->]. rewrite has_char_append in Hx.
    apply orb_false_elim in Hx as [_ Hx]. cbn in Hx. discriminate Hx.
  - cbn [has_char] in Hu. apply orb_false_elim in Hu as [Hc Hu].
    destruct t as [|c' t]; cbn [String.append].
    + intros [= -> _]. cbn in Hc. discriminate Hc.
    + intros [= _ H]. by apply (IH t).
Qed.

(** X23. The pattern inverts the composition of an identifier: from four
    components without a newline, the run period holding neither dash nor
    slash, the version and the tier no slash, the identifier made of them
    is accepted and parsed back into the same four components (the short
    name may hold slashes and dashes). *)
Theorem dataset_match_rebuild a b c d :
  has_char Py.nl a = false →
  has_char Py.nl b = false → has_char "-" b = false → has_char "/" b = false →
  has_char Py.nl c = false → has_char "/" c = false →
  has_char Py.nl d = false → has_char "/" d = false →
  Re.dataset_match (rebuild a b c d) = Some (a, b, c, d).
Proof.
  intros Ha Hb Hbd Hbs Hc Hcs Hd Hds.
  unfold Re.dataset_match, rebuild. cbn [String.append Re.lit].
  change (Ascii.eqb "/" "/") with true. cbv iota.
  assert (H4 : ∀ g1 g2 g3 : string,
    Re.star_greedy (fun g4 r =>
      if Re.at_end r then Some (g1, g2, g3, g4) else None) d
    = Some (g1, g2, g3, d)).
  { intros. rewrite <- (append_nil_r d) at 1.
    apply star_greedy_at; [done|reflexivity|].
    intros t r' Hr Ht. destruct t; [done|discriminate Hr]. }
  assert (H3 : ∀ g1 g2 : string,
    Re.star_lazy (fun g3 =>
      Re.lit "/" (Re.star_greedy (fun g4 r =>
        if Re.at_end r then Some (g1, g2, g3, g4) else None)))
      (c +:+ String "/" d)
    = Some (g1, g2, c, d)).
  { intros. apply star_lazy_at; [done| |].
    - cbn [Re.lit]. change (Ascii.eqb "/" "/") with true. cbv iota. apply H4.
    - intros p t -> Ht. destruct t as [|x t]; [done|].
      apply lit_no_char. intros s' [= -> _].
      rewrite has_char_append in Hcs. apply orb_false_elim in Hcs as [_ Hcs].
      cbn in Hcs. discriminate Hcs. }
  assert (H2 : ∀ g1 : string,
    Re.star_lazy (fun g2 =>
      Re.lit "-" (Re.star_lazy (fun g3 =>
        Re.lit "/" (Re.star_greedy (fun g4 r =>
          if Re.at_end r then Some (g1, g2, g3, g4) else None)))))
      (b +:+ String "-" (c +:+ String "/" d))
    = Some (g1, b, c, d)).
  { intros. apply star_lazy_at; [done| |].
    - cbn [Re.lit]. change (Ascii.eqb "-" "-") with true. cbv iota. apply H3.
    - intros p t -> Ht. destruct t as [|x t]; [done|].
      apply lit_no_char. intros s' [= -> _].
      rewrite has_char_append in Hbd. apply orb_false_elim in Hbd as [_ Hbd].
      cbn in Hbd. discriminate Hbd. }
  apply star_greedy_at; [done| |].
  - cbn [String.append Re.lit]. change (Ascii.eqb "/" "/") with true. cbv iota.
    apply H2.
  - intros t r' Hr Ht. destruct r' as [|x r']; [reflexivity|]. cbn [Re.lit].
    destruct (Ascii.eqb_spec x "/") as [->|]; [|reflexivity].
    destruct t as [|y t]; [done|]. cbn [String.append] in Hr.
    injection Hr as <- Hr.
    assert (Hr' : (b +:+ String "-" c) +:+ String "/" d = t +:+ String "/" r').
    { rewrite append_assoc. exact Hr. }
    apply first_slash_unique in Hr'; [|by rewrite has_char_append, Hbs|done].
    subst r'. apply star_lazy_fail. intros p r3 Hd3.
    destruct r3 as [|z r3]; [reflexivity|]. cbn [Re.lit].
    destruct (Ascii.eqb z "-"); [|reflexivity].
    apply star_lazy_fail. intros p3 r5 ->.
    apply lit_no_char. intros s' ->.
    rewrite Hd3, has_char_append in Hds. cbn [has_char] in Hds.
    rewrite has_char_append in Hds. cbn [has_char] in Hds.
    rewrite Ascii.eqb_refl in Hds. cbn [orb] in Hds.
    rewrite !orb_true_r in Hds. discriminate Hds.
Qed.

Lemma star_greedy_sound_nl {A} (k : string → string → option A) s x :
  Re.star_greedy k s = Some x →
  ∃ p r, s = p +:+ r ∧ has_char Py.nl p = false ∧ k p r = Some x.
Proof.
  revert k. induction s as [|c s IH]; intros k; cbn [Re.star_greedy].
  - intros H. by exists "", "".
  - destruct (Ascii.eqb c Py.nl) eqn:Ec.
    { intros H. by exists "", (String c s). }
    destruct (Re.star_greedy _ s) as [y|] eqn:E.
    + intros [= ->]. apply IH in E as (p & r & -> & Hp & Hk).
      exists (String c p), r. cbn [has_char]. by rewrite Ec, Hp.
    + intros H. by exists "", (String c s).
Qed.

Lemma star_lazy_sound_min {A} (k : string → string → option A) s x :
  Re.star_lazy k s = Some x →
  ∃ p r, s = p +:+ r ∧ has_char Py.nl p = false ∧ k p r = Some x ∧
         ∀ p' t, p = p' +:+ t → t ≠ "" → k p' (t +:+ r) = None.
Proof.
  revert k. induction s as [|c s IH]; intros k; rewrite star_lazy_unfold.
  - destruct (k "" "") eqn:E; [|discriminate]. intros [= ->].
    exists "", "". repeat split; try done.
    intros p' t Hp Ht. destruct p', t; done.
  - destruct (k "" (String c s)) eqn:E.
    { intros [= ->]. exists "", (String c s). repeat split; try done.
      intros p' t Hp Ht. destruct p', t; done. }
    destruct (Ascii.eqb c Py.nl) eqn:Ec; [discriminate|].
    intros H. apply IH in H as (p & r & -> & Hp & Hk & Hmin).
    exists (String c p), r. cbn [has_char]. rewrite Ec, Hp.
    repeat split; try done. intros p' t Heq Ht.
    destruct p' as [|c' p']; cbn [String.append] in Heq.
    + subst t. exact E.
    + injection Heq as <- ->. by apply (Hmin p' t).
Qed.

Lemma star_greedy_complete {A} (k : string → string → option A) p r :
  has_char Py.nl p = false → is_Some (k p r) →
  is_Some (Re.star_greedy k (p +:+ r)).
Proof.
  revert k. induction p as [|c p IH]; intros k Hp Hk.
  - cbn [String.append]. destruct r as [|c r]; [exact Hk|].
    cbn [Re.star_greedy]. destruct (Ascii.eqb c Py.nl); [exact Hk|].
    by destruct (Re.star_greedy _ r).
  - cbn [has_char] in Hp. apply orb_false_elim in Hp as [Hc Hp].
    cbn [String.append Re.star_greedy]. rewrite Hc.
    destruct (IH (fun p r => k (String c p) r) Hp Hk) as [y ->]. eauto.
Qed.

Lemma star_lazy_complete {A} (k : string → string → option A) p r :
  has_char Py.nl p = false → is_Some (k p r) →
  is_Some (Re.star_lazy k (p +:+ r)).
Proof.
  revert k. induction p as [|c p IH]; intros k Hp Hk; rewrite star_lazy_unfold.
  - cbn [String.append]. destruct Hk as [y ->]. eauto.
  - cbn [has_char] in Hp. apply orb_false_elim in Hp as [Hc Hp].
    cbn [String.append]. destruct (k "" _); [eauto|]. rewrite Hc.
    by apply (IH (fun p r => k (String c p) r)).
Qed.

Lemma has_char_split c s :
  has_char c s = true → ∃ p t, s = p +:+ String c t.
Proof.
  induction s as [|x s IH]; [discriminate|]. cbn [has_char].
  destruct (Ascii.eqb_spec x c) as [->|_].
  - intros _. by exists "", s.
  - intros H. destruct (IH H) as (p & t & ->). by exists (String x p), t.
Qed.

(** X24. In an identifier the pattern accepts, no component holds a
    newline, the run period holds no dash and the version no slash: the
    run period ends at the first dash after the short name, and the
    version at the first slash after that dash. *)
Theorem dataset_match_components s a b c d :
  Re.dataset_match s = Some (a, b, c, d) →
  has_char Py.nl a = false ∧ has_char Py.nl b = false ∧
  has_char Py.nl c = false ∧ has_char Py.nl d = false ∧
  has_char "-" b = false ∧ has_char "/" c = false.
Proof.
  unfold Re.dataset_match. intros H.
  apply lit_sound in H as (r0 & -> & H).
  apply star_greedy_sound_nl in H as (g1 & r1 & -> & Hn1 & H).
  apply lit_sound in H as (r2 & -> & H).
  apply star_lazy_sound_min in H as (g2 & r3 & -> & Hn2 & H & Hmin2).
  apply lit_sound in H as (r4 & -> & H).
  apply star_lazy_sound_min in H as (g3 & r5 & -> & Hn3 & H & Hmin3).
  apply lit_sound in H as (r6 & -> & H).
  apply star_greedy_sound_nl in H as (g4 & r7 & -> & Hn4 & H).
  destruct (Re.at_end r7) eqn:E; [|discriminate].
  injection H as -> -> -> ->.
  assert (Hlast : ∀ x y z : string,
    is_Some (Re.star_greedy (fun g4 r =>
      if Re.at_end r then Some (x, y, z, g4) else None) (d +:+ r7))).
  { intros. apply star_greedy_complete; [done|]. rewrite E. eauto. }
  repeat split; try done.
  - destruct (has_char "-" b) eqn:Hd; [exfalso|reflexivity].
    apply has_char_split in Hd as (p' & t' & ->).
    rewrite has_char_append in Hn2. apply orb_false_elim in Hn2 as [_ Hn2].
    cbn [has_char] in Hn2. apply orb_false_elim in Hn2 as [_ Hn2].
    specialize (Hmin2 p' (String "-" t') eq_refl ltac:(done)).
    cbn [String.append Re.lit] in Hmin2.
    change (Ascii.eqb "-" "-") with true in Hmin2. cbv iota in Hmin2.
    replace (t' +:+ String "-" (c +:+ String "/" (d +:+ r7)))
      with ((t' +:+ String "-" c) +:+ String "/" (d +:+ r7)) in Hmin2
      by (by rewrite append_assoc).
    match type of Hmin2 with
    | Re.star_lazy ?k (?p +:+ ?r) = None =>
        destruct (star_lazy_complete k p r) as [y Hy]
    end.
    + rewrite has_char_append, Hn2. cbn [has_char]. by rewrite Hn3.
    + cbn [Re.lit]. change (Ascii.eqb "/" "/") with true. cbv iota. apply Hlast.
    + rewrite Hy in Hmin2. discriminate Hmin2.
  - destruct (has_char "/" c) eqn:Hs; [exfalso|reflexivity].
    apply has_char_split in Hs as (p' & t' & ->).
    rewrite has_char_append in Hn3. apply orb_false_elim in Hn3 as [_ Hn3].
    cbn [has_char] in Hn3. apply orb_false_elim in Hn3 as [_ Hn3].
    specialize (Hmin3 p' (String "/" t') eq_refl ltac:(done)).
    cbn [String.append Re.lit] in Hmin3.
    change (Ascii.eqb "/" "/") with true in Hmin3. cbv iota in Hmin3.
    replace (t' +:+ String "/" (d +:+ r7))
      with ((t' +:+ String "/" d) +:+ r7) in Hmin3
      by (by rewrite append_assoc).
    match type of Hmin3 with
    | Re.star_greedy ?k (?p +:+ ?r) = None =>
        destruct (star_greedy_complete k p r) as [y Hy]
    end.
    + rewrite has_char_append, Hn3. cbn [has_char]. by rewrite Hn4.
    + rewrite E. eauto.
    + rewrite Hy in Hmin3. discriminate Hmin3.
Qed.


End Pipeline.

(** ** The statements at the sample installation *)

Lemma dataset_roundtrip_sample :
  rebuild "ZeroBias" "Run2015E" "PromptReco-v1" "AOD" = sample_dataset.
Proof. exact (dataset_roundtrip sample_dataset _ _ _ _ eq_refl eq_refl). Defined.


(** C3 (as stated, refuted). A dataset with no document in the DAS store:
    [get_number_events] raises [FileNotFoundError] where 0 was claimed. *)
Lemma numeric_metrics_absent_dataset_raises :
  ¬ (∀ json_loads w dataset,
       fs w !! das_store_path dataset = None →
       get_number_events json_loads w dataset = Ok (JInt 0) ∧
       get_number_files json_loads w dataset = Ok (JInt 0) ∧
       get_size json_loads w dataset = Ok (JInt 0)).
Proof.
  intros H.
  destruct (H sample_json_loads (World ∅ (fun _ => "") 0 []) sample_dataset
              (lookup_empty _)) as [He _].
  discriminate He.
Qed.

Lemma numeric_metrics_sample :
  get_number_events sample_json_loads sample_world sample_dataset = Ok (JInt 0) ∧
  get_number_files sample_json_loads sample_world sample_dataset = Ok (JInt 0) ∧
  get_size sample_json_loads sample_world sample_dataset = Ok (JInt 0).
Proof.
  apply (numeric_metrics_default_zero sample_json_loads sample_world
           sample_dataset "{}" (JDict [])); reflexivity.
Defined.

Lemma sample_sources_ok base :
  sources_ok base sample_json_loads sample_globals sample_world
    sample_dataset "ZeroBias".
Proof.
  split; [|split; [|split]].
  - exists (JDict []). reflexivity.
  - eexists. vm_compute. reflexivity.
  - eexists. vm_compute. reflexivity.
  - vm_compute. repeat constructor; eexists; reflexivity.
Defined.

Lemma record_files_array_sample :
  ∃ rec files,
    create_record "root://eospublic.cern.ch/" (fun _ => "CMS_Run2015E_ZeroBias_AOD")
      (fun _ => "/eos/opendata/cms/Run2015E/ZeroBias/AOD") sample_json_loads
      sample_globals sample_world 24600 sample_dataset []
    = ([], Ok (JDict rec)) ∧
    dict_get rec "files" = Some (JList files) ∧
    length files = 2%nat.
Proof.
  destruct (record_files_array "root://eospublic.cern.ch/"
              (fun _ => "CMS_Run2015E_ZeroBias_AOD")
              (fun _ => "/eos/opendata/cms/Run2015E/ZeroBias/AOD")
              sample_json_loads sample_globals sample_world 24600
              sample_dataset "ZeroBias" "Run2015E" "PromptReco-v1" "AOD" []
              1 1 eq_refl (sample_sources_ok _) eq_refl eq_refl)
    as (rec & files & Hrec & Hfiles & Hlen & _).
  exists rec, files. auto.
Defined.


Lemma sample_worlds_same_inputs : same_inputs sample_world sample_world_later.
Proof.
  split; [|reflexivity]. intros path Hpath. cbn [sample_world_later fs].
  destruct (decide ("/etc/hostname" = path)) as [<-|Hne]; [discriminate Hpath|].
  by rewrite lookup_insert_ne.
Defined.



(** ** Further statements at the sample installation *)

Lemma deep_json_first_value_sample :
  get_from_deep_json (JDict [("das", JList [JDict [("nevents", JInt 7)]])]) "nevents"
  = JInt 7.
Proof.
  apply (deep_json_first_value
           (JDict [("das", JList [JDict [("nevents", JInt 7)]])]) "nevents").
  repeat constructor.
Defined.

Lemma record_shape_sample :
  ∃ rec,
    create_record "root://eospublic.cern.ch/" (fun _ => "CMS_Run2015E_ZeroBias_AOD")
      (fun _ => "/eos/opendata/cms/Run2015E/ZeroBias/AOD") sample_json_loads
      sample_globals sample_world 24600 sample_dataset []
    = ([], Ok (JDict rec)) ∧
    dict_get rec "run_numbers" = Some (JList [JStr "261446"; JStr "261447"]).
Proof.
  destruct (record_shape "root://eospublic.cern.ch/"
              (fun _ => "CMS_Run2015E_ZeroBias_AOD")
              (fun _ => "/eos/opendata/cms/Run2015E/ZeroBias/AOD")
              sample_json_loads sample_globals sample_world 24600
              sample_dataset "ZeroBias" "Run2015E" "PromptReco-v1" "AOD" []
              eq_refl (sample_sources_ok _))
    as (rec & Hrec & _ & _ & Hruns & _).
  exists rec. split; [exact Hrec|]. rewrite Hruns. vm_compute. reflexivity.
Defined.

Lemma blank_line_raises_sample :
  populate_doiinfo sample_world_blank = Raise ValueError.
Proof.
  apply (blank_line_raises sample_world_blank
           (line (sample_dataset +:+ " 10.7483/OPENDATA.CMS.XXXX.YYYY") +:+ line "")
           (line "")).
  - vm_compute. apply list_elem_of_further, list_elem_of_here.
  - reflexivity.
  - vm_compute. reflexivity.
Defined.

Lemma runnumber_first_block_wins_sample :
  rn_cache (runnumber_lines
              ([line "/A"; line "2"; line "1"; line "/B"]
               ++ [line "3"; line "/A"; line "4"; line "/C"]))
  !! "/A" = Some ["1"; "2"].
Proof.
  apply runnumber_first_block_wins. vm_compute. reflexivity.
Defined.



Lemma runperiod_short_token_sample :
  dataset_runperiod_year "Run" = "" ∧ dataset_runperiod_runx "Run" = "Run".
Proof. apply runperiod_short_token. cbn. lia. Defined.

Lemma dataset_match_rebuild_sample :
  Re.dataset_match (rebuild "ZeroBias" "Run2015E" "PromptReco-v1" "AOD")
  = Some ("ZeroBias", "Run2015E", "PromptReco-v1", "AOD").
Proof. apply dataset_match_rebuild; reflexivity. Defined.

Lemma dataset_match_components_sample :
  has_char Py.nl "ZeroBias" = false ∧ has_char Py.nl "Run2015E" = false ∧
  has_char Py.nl "PromptReco-v1" = false ∧ has_char Py.nl "AOD" = false ∧
  has_char "-" "Run2015E" = false ∧ has_char "/" "PromptReco-v1" = false.
Proof. apply (dataset_match_components sample_dataset). reflexivity. Defined.
